(** * CSV import/export exercises: validation, normalisation, write pipeline

    A shallow embedding of [exercises/exercise-2.py] and
    [exercises/exercise-3.py].

    Python [str] values are modelled as [string] over the code points
    0..255; the tables of [str.lower], [str.strip] and the pattern class
    [\d] are the ones Python uses on that range.  A row produced by
    [csv.DictReader] is a [gmap string string]: every column it has is
    bound to a string; [Ex3Reader] embeds [is_valid_row] and
    [transform_row] again on rows where a short line has left columns
    bound to [None].  Python integers are [Z], counters that only grow
    from zero are [nat]. *)

From Stdlib Require Import ZArith NArith Ascii String List Sorted Permutation Lia.
From stdpp Require Import gmap strings list fin_maps sorting.

(** ** Python built-ins used by the exercises *)

Module Py.

Definition code (c : ascii) : N := N_of_ascii c.

Definition between (lo hi n : N) : bool := ((lo <=? n) && (n <=? hi))%N.

(** [str.isspace] on one character: TAB..CR, FS..US, SPACE, NEL, NBSP. *)
Definition isspace (c : ascii) : bool :=
  let n := code c in
  between 9 13 n || between 28 32 n || (n =? 133)%N || (n =? 160)%N.

(** The characters [str.lower] changes: A-Z and the Latin-1 capitals
    (U+00C0..U+00DE without the multiplication sign U+00D7). *)
Definition isupper (c : ascii) : bool :=
  let n := code c in
  between 65 90 n || between 192 214 n || between 216 222 n.

Definition lower_char (c : ascii) : ascii :=
  if isupper c then ascii_of_N (code c + 32) else c.

Fixpoint lower (s : string) : string :=
  match s with
  | EmptyString => EmptyString
  | String c r => String (lower_char c) (lower r)
  end.

Fixpoint lstrip (s : string) : string :=
  match s with
  | EmptyString => EmptyString
  | String c r => if isspace c then lstrip r else s
  end.

Fixpoint rstrip (s : string) : string :=
  match s with
  | EmptyString => EmptyString
  | String c r =>
      match rstrip r with
      | EmptyString => if isspace c then EmptyString else String c EmptyString
      | r' => String c r'
      end
  end.

(** [s.strip()] *)
Definition strip (s : string) : string := rstrip (lstrip s).

(** [s.replace(old, new)] for one-character [old] and [new]. *)
Fixpoint replace (old new : ascii) (s : string) : string :=
  match s with
  | EmptyString => EmptyString
  | String c r =>
      String (if Ascii.eqb c old then new else c) (replace old new r)
  end.

(** [s.split(sep)] for a one-character separator. *)
Fixpoint split (sep : ascii) (s : string) : list string :=
  match s with
  | EmptyString => [EmptyString]
  | String c r =>
      if Ascii.eqb c sep then EmptyString :: split sep r
      else match split sep r with
           | h :: t => String c h :: t
           | [] => [String c EmptyString]
           end
  end.

(** Truth value of a string: non-empty. *)
Definition truthy (s : string) : bool :=
  match s with EmptyString => false | String _ _ => true end.

Definition isdigit (c : ascii) : bool := between 48 57 (code c).

Definition digit_value (c : ascii) : Z := Z.of_N (code c) - 48.

Fixpoint int_acc (acc : Z) (s : string) : option Z :=
  match s with
  | EmptyString => Some acc
  | String c r =>
      if isdigit c then int_acc (10 * acc + digit_value c) r else None
  end.

(** [int(s)] on a string of decimal digits.  [None] stands for
    [ValueError]; the other input forms [int] reads (sign, surrounding
    blanks, underscores between digits) are not in its domain here: the
    only call site passes groups a digit pattern has already accepted. *)
Definition int (s : string) : option Z :=
  match s with
  | EmptyString => None
  | String _ _ => int_acc 0 s
  end.

(** [d.get(k, default)] *)
Definition get (d : gmap string string) (k default : string) : string :=
  match d !! k with Some v => v | None => default end.

End Py.

(** ** Regular expressions (module [re]) *)

Module Re.

Inductive regex : Type :=
| Void : regex
| Eps : regex
| Cls : (ascii -> bool) -> regex
| Cat : regex -> regex -> regex
| Alt : regex -> regex -> regex
| Star : regex -> regex.

Fixpoint nullable (r : regex) : bool :=
  match r with
  | Void => false
  | Eps => true
  | Cls _ => false
  | Cat a b => nullable a && nullable b
  | Alt a b => nullable a || nullable b
  | Star _ => true
  end.

Fixpoint deriv (c : ascii) (r : regex) : regex :=
  match r with
  | Void => Void
  | Eps => Void
  | Cls p => if p c then Eps else Void
  | Cat a b =>
      if nullable a then Alt (Cat (deriv c a) b) (deriv c b)
      else Cat (deriv c a) b
  | Alt a b => Alt (deriv c a) (deriv c b)
  | Star a => Cat (deriv c a) (Star a)
  end.

(** Does the whole of [s] belong to the language of [r]? *)
Fixpoint matches (r : regex) (s : string) : bool :=
  match s with
  | EmptyString => nullable r
  | String c t => matches (deriv c r) t
  end.

(** [r{n}] *)
Fixpoint times (n : nat) (r : regex) : regex :=
  match n with
  | O => Eps
  | S k => Cat r (times k r)
  end.

(** [r{0,n}] *)
Fixpoint upto (n : nat) (r : regex) : regex :=
  match n with
  | O => Eps
  | S k => Alt (Cat r (upto k r)) Eps
  end.

(** [r{lo,hi}] *)
Definition rep (lo hi : nat) (r : regex) : regex :=
  Cat (times lo r) (upto (hi - lo) r).

(** [s] without its last character when that is a line feed. *)
Fixpoint chomp (s : string) : option string :=
  match s with
  | EmptyString => None
  | String c EmptyString =>
      if Ascii.eqb c "010"%char then Some EmptyString else None
  | String c t =>
      match chomp t with
      | Some t' => Some (String c t')
      | None => None
      end
  end.

(** [bool(re.match(p, s))] for a pattern [p] all of whose alternatives
    have the shape [^r$]: [re.match] starts at position 0, and [$] holds
    at the end of [s] and also just before a final line feed. *)
Definition re_match (r : regex) (s : string) : bool :=
  matches r s
  || match chomp s with
     | Some t => matches r t
     | None => false
     end.

(** The denotation the matcher is checked against. *)
Inductive lang : regex -> string -> Prop :=
| lang_eps : lang Eps EmptyString
| lang_cls p c : p c = true -> lang (Cls p) (String c EmptyString)
| lang_cat a b s t : lang a s -> lang b t -> lang (Cat a b) (s +:+ t)
| lang_alt_l a b s : lang a s -> lang (Alt a b) s
| lang_alt_r a b s : lang b s -> lang (Alt a b) s
| lang_star_nil a : lang (Star a) EmptyString
| lang_star_app a s t :
    lang a s -> lang (Star a) t -> lang (Star a) (s +:+ t).

End Re.

(** [list.sort(key=...)] on string keys: stable, and decided by [<] on the
    keys alone (lexicographic order on code points). *)
Module PySort.
Section SortBy.
Context {A : Type} (key : A -> string).

Fixpoint insert_by (x : A) (l : list A) : list A :=
  match l with
  | [] => [x]
  | y :: r =>
      if String.ltb (key y) (key x) then y :: insert_by x r
      else x :: y :: r
  end.

Definition sort_by (l : list A) : list A := foldr insert_by [] l.
End SortBy.
End PySort.

(** ** [dict] with its insertion order *)

Module PyDict.
Section Dict.
Context {V : Type}.

(** [d.get(k)]: [None] when [k] is not a key. *)
Fixpoint get (d : list (string * V)) (k : string) : option V :=
  match d with
  | [] => None
  | (a, v) :: r => if String.eqb a k then Some v else get r k
  end.

(** [k in d] *)
Definition contains (d : list (string * V)) (k : string) : bool :=
  match get d k with Some _ => true | None => false end.

(** [d[k] = v]: a key already there keeps its place, a new one goes last. *)
Fixpoint set (d : list (string * V)) (k : string) (v : V)
  : list (string * V) :=
  match d with
  | [] => [(k, v)]
  | (a, w) :: r =>
      if String.eqb a k then (a, v) :: r else (a, w) :: set r k v
  end.

End Dict.

(** [<] on [(str, int)] tuples: first components, then second ones. *)
Definition item_ltb (a b : string * nat) : bool :=
  String.ltb a.1 b.1 || (String.eqb a.1 b.1 && (a.2 <? b.2)).

Fixpoint insert_item (x : string * nat) (l : list (string * nat))
  : list (string * nat) :=
  match l with
  | [] => [x]
  | y :: r => if item_ltb y x then y :: insert_item x r else x :: y :: r
  end.

(** [sorted(d.items())] *)
Definition sorted_items (d : list (string * nat)) : list (string * nat) :=
  foldr insert_item [] d.

End PyDict.

(** ** Exercise 2: validating and cleaning *)

Module Ex2.
Import Py Re.

Definition alnum (c : ascii) : bool :=
  let n := code c in between 97 122 n || between 65 90 n || between 48 57 n.

Definition alnum_hyphen (c : ascii) : bool :=
  alnum c || Ascii.eqb c "-"%char.

Definition is_dot (c : ascii) : bool := Ascii.eqb c "."%char.

(** [^[a-zA-Z0-9][a-zA-Z0-9\-]*[a-zA-Z0-9]$|^[a-zA-Z0-9]$] *)
Definition hostname_pattern : regex :=
  Alt (Cat (Cls alnum) (Cat (Star (Cls alnum_hyphen)) (Cls alnum)))
      (Cls alnum).

(** [^(\d{1,3}\.){3}\d{1,3}$] *)
Definition ip_pattern : regex :=
  Cat (times 3 (Cat (rep 1 3 (Cls isdigit)) (Cls is_dot)))
      (rep 1 3 (Cls isdigit)).

Definition is_valid_hostname (hostname : string) : bool :=
  if negb (truthy hostname) || negb (truthy (strip hostname)) then false
  else re_match hostname_pattern (strip hostname).

(** [all(0 <= int(octet) <= 255 for octet in octets)]: stops at the first
    octet out of range. *)
Fixpoint all_octets (octets : list string) : option bool :=
  match octets with
  | [] => Some true
  | octet :: rest =>
      v ← int octet;
      if ((0 <=? v) && (v <=? 255))%Z then all_octets rest else Some false
  end.

Definition is_valid_ip (ip_address : string) : option bool :=
  if negb (truthy ip_address) || negb (truthy (strip ip_address))
  then Some false
  else if negb (re_match ip_pattern (strip ip_address)) then Some false
  else all_octets (split "."%char (strip ip_address)).

Definition type_mapping : gmap string string :=
  list_to_map
    [ ("sw", "switch"); ("switch", "switch");
      ("rtr", "router"); ("router", "router");
      ("fw", "firewall"); ("firewall", "firewall") ].

Definition normalize_device_type (device_type : string) : string :=
  let normalized := strip (lower device_type) in
  get type_mapping normalized normalized.

Definition location_mapping : gmap string string :=
  list_to_map
    [ ("bldg a", "building-a"); ("building a", "building-a");
      ("bldg b", "building-b"); ("building b", "building-b");
      ("bldg c", "building-c"); ("building c", "building-c");
      ("dc", "data-center"); ("data center", "data-center");
      ("datacenter", "data-center") ].

Definition normalize_location (location : string) : string :=
  let normalized := strip (lower location) in
  get location_mapping normalized (replace " "%char "-"%char normalized).

Record ValidationResult : Type := mkValidationResult {
  row_number : Z;
  is_valid : bool;
  errors : list string;
  cleaned_data : option (gmap string string)
}.

Definition validate_row (row_num : Z) (row : gmap string string)
  : option ValidationResult :=
  let errors := [] in
  let hostname := strip (get row "hostname" (get row "name" "")) in
  let ip := strip (get row "ip" (get row "ip_address" "")) in
  let device_type := strip (get row "type" (get row "device_type" "")) in
  let location := strip (get row "loc" (get row "location" "")) in
  let errors :=
    if negb (truthy hostname) then errors ++ ["Missing hostname"]
    else if negb (is_valid_hostname hostname)
         then errors ++ ["Invalid hostname format: '" +:+ hostname +:+ "'"]
         else errors in
  errors ←
    (if negb (truthy ip) then Some (errors ++ ["Missing IP address"])
     else ok ← is_valid_ip ip;
          Some (if negb ok
                then errors ++ ["Invalid IP address: '" +:+ ip +:+ "'"]
                else errors));
  let errors :=
    if negb (truthy device_type) then errors ++ ["Missing device type"]
    else errors in
  let errors :=
    if negb (truthy location) then errors ++ ["Missing location"]
    else errors in
  let cleaned_data :=
    match errors with
    | [] =>
        Some (list_to_map
                [ ("hostname", replace "_"%char "-"%char (lower hostname));
                  ("ip_address", ip);
                  ("device_type", normalize_device_type device_type);
                  ("location", normalize_location location) ])
    | _ :: _ => None
    end in
  Some {| row_number := row_num;
          is_valid := Nat.eqb (length errors) 0;
          errors := errors;
          cleaned_data := cleaned_data |}.

(** Truth value of a dict: non-empty. *)
Definition dict_truthy (d : gmap string string) : bool :=
  negb (bool_decide (d = ∅)).

(** The loop of [process_messy_csv] over [enumerate(reader, start=row_num)],
    with the two lists it appends to. *)
Fixpoint process_rows (row_num : Z) (rows : list (gmap string string))
    (valid_devices : list (gmap string string))
    (all_results : list ValidationResult)
  : option (list (gmap string string) * list ValidationResult) :=
  match rows with
  | [] => Some (valid_devices, all_results)
  | row :: rest =>
      result ← validate_row row_num row;
      let all_results := all_results ++ [result] in
      let valid_devices :=
        match cleaned_data result with
        | Some cleaned =>
            if is_valid result && dict_truthy cleaned
            then valid_devices ++ [cleaned]
            else valid_devices
        | None => valid_devices
        end in
      process_rows (row_num + 1) rest valid_devices all_results
  end.

(** [process_messy_csv] on the rows the reader yields. *)
Definition process_messy_csv (rows : list (gmap string string))
  : option (list (gmap string string) * list ValidationResult) :=
  process_rows 2 rows [] [].

End Ex2.

(** ** Exercise 3: writing and transforming *)

Module Ex3.
Import Py.

Record Device : Type := mkDevice {
  hostname : string;
  ip_address : string;
  device_type : string;
  location : string;
  status : string
}.

Definition to_dict (self : Device) : gmap string string :=
  list_to_map
    [ ("hostname", hostname self); ("ip_address", ip_address self);
      ("device_type", device_type self); ("location", location self);
      ("status", status self) ].

Definition normalize_hostname (hostname : string) : string :=
  replace " "%char "-"%char
    (replace "_"%char "-"%char (strip (lower hostname))).

Definition type_mapping : gmap string string :=
  list_to_map
    [ ("sw", "switch"); ("switch", "switch");
      ("rtr", "router"); ("router", "router");
      ("fw", "firewall"); ("firewall", "firewall") ].

Definition normalize_device_type (dtype : string) : string :=
  get type_mapping (strip (lower dtype)) (strip (lower dtype)).

Definition location_mapping : gmap string string :=
  list_to_map
    [ ("bldg a", "building-a"); ("building a", "building-a");
      ("bldg b", "building-b"); ("building b", "building-b");
      ("bldg c", "building-c"); ("building c", "building-c");
      ("dc", "data-center"); ("data center", "data-center");
      ("datacenter", "data-center") ].

Definition normalize_location (location : string) : string :=
  let normalized := strip (lower location) in
  get location_mapping normalized (replace " "%char "-"%char normalized).

Definition is_valid_row (row : gmap string string) : bool :=
  let hostname := strip (get row "hostname" (get row "name" "")) in
  let ip := strip (get row "ip" (get row "ip_address" "")) in
  truthy hostname && truthy ip.

Definition transform_row (row : gmap string string) : option Device :=
  if negb (is_valid_row row) then None
  else
    let hostname := strip (get row "hostname" (get row "name" "")) in
    let ip := strip (get row "ip" (get row "ip_address" "")) in
    let dtype := strip (get row "type" (get row "device_type" "")) in
    let location := strip (get row "loc" (get row "location" "")) in
    Some {| hostname := normalize_hostname hostname;
            ip_address := ip;
            device_type := normalize_device_type dtype;
            location := normalize_location location;
            status := "active" |}.

(** *** [task_3_transform_pipeline] *)

(** The reading loop: [devices] and [skipped]. *)
Record Read : Type := mkRead { devices : list Device; skipped : nat }.

Definition read_row (st : Read) (row : gmap string string) : Read :=
  match transform_row row with
  | Some device => mkRead (devices st ++ [device]) (skipped st)
  | None => mkRead (devices st) (S (skipped st))
  end.

Definition read_rows (rows : list (gmap string string)) : Read :=
  fold_left read_row rows (mkRead [] 0).

(** The duplicate-removal loop: [seen], [unique_devices], [duplicates]. *)
Record Dedup : Type := mkDedup {
  seen : gset string;
  unique_devices : list Device;
  duplicates : nat
}.

Definition dedup_step (st : Dedup) (device : Device) : Dedup :=
  if bool_decide (hostname device ∉ seen st)
  then mkDedup ({[hostname device]} ∪ seen st)
               (unique_devices st ++ [device])
               (duplicates st)
  else mkDedup (seen st) (unique_devices st) (S (duplicates st)).

Definition remove_duplicates (devs : list Device) : Dedup :=
  fold_left dedup_step devs (mkDedup ∅ [] 0).

Definition fieldnames : list string :=
  ["hostname"; "ip_address"; "device_type"; "location"; "status"].

(** One [DictWriter.writerow]: the values in [fieldnames] order. *)
Definition writerow (rowdict : gmap string string) : list string :=
  (fun k => get rowdict k "") <$> fieldnames.

(** What the pipeline produces: the records written to the output file
    (header first) and the figures it reports. *)
Record Report : Type := mkReport {
  written : list (list string);
  valid_devices : nat;
  skipped_invalid : nat;
  duplicates_removed : nat;
  final_count : nat
}.

(** [unique_devices] after [unique_devices.sort(key=lambda d: d.hostname)]. *)
Definition sorted_unique (devs : list Device) : list Device :=
  PySort.sort_by hostname (unique_devices (remove_duplicates devs)).

Definition task_3_transform_pipeline (rows : list (gmap string string))
  : Report :=
  let rd := read_rows rows in
  let dd := remove_duplicates (devices rd) in
  let unique_devices := PySort.sort_by hostname (unique_devices dd) in
  {| written := fieldnames :: ((fun d => writerow (to_dict d)) <$> unique_devices);
     valid_devices := length (devices rd);
     skipped_invalid := skipped rd;
     duplicates_removed := duplicates dd;
     final_count := length unique_devices |}.

(** *** [task_4_split_by_type]: grouping the rows *)

(** One turn of the grouping loop; [None] is the [KeyError] of
    [row["device_type"]]. *)
Definition group_row
    (devices_by_type : list (string * list (gmap string string)))
    (row : gmap string string)
  : option (list (string * list (gmap string string))) :=
  dtype ← row !! "device_type";
  let devices_by_type :=
    if negb (PyDict.contains devices_by_type dtype)
    then PyDict.set devices_by_type dtype []
    else devices_by_type in
  devices ← PyDict.get devices_by_type dtype;
  Some (PyDict.set devices_by_type dtype (devices ++ [row])).

Fixpoint group_rows
    (devices_by_type : list (string * list (gmap string string)))
    (rows : list (gmap string string))
  : option (list (string * list (gmap string string))) :=
  match rows with
  | [] => Some devices_by_type
  | row :: rest =>
      devices_by_type ← group_row devices_by_type row;
      group_rows devices_by_type rest
  end.

Definition devices_by_type (rows : list (gmap string string))
  : option (list (string * list (gmap string string))) :=
  group_rows [] rows.

(** *** [task_5_add_metadata]: collecting the statistics *)

Record Stats : Type := mkStats {
  total_devices : nat;
  by_type : list (string * nat);
  by_location : list (string * nat)
}.

(** [counts[k] = counts.get(k, 0) + 1] *)
Definition count_up (counts : list (string * nat)) (k : string)
  : list (string * nat) :=
  PyDict.set counts k (default 0 (PyDict.get counts k) + 1).

(** One turn of the counting loop; [None] is the [KeyError] of
    [row["device_type"]] or [row["location"]]. *)
Definition count_row (stats : Stats) (row : gmap string string)
  : option Stats :=
  let total_devices := total_devices stats + 1 in
  dtype ← row !! "device_type";
  let by_type := count_up (by_type stats) dtype in
  location ← row !! "location";
  let by_location := count_up (by_location stats) location in
  Some (mkStats total_devices by_type by_location).

Fixpoint count_rows (stats : Stats) (rows : list (gmap string string))
  : option Stats :=
  match rows with
  | [] => Some stats
  | row :: rest => stats ← count_row stats row; count_rows stats rest
  end.

Definition collect_stats (rows : list (gmap string string)) : option Stats :=
  count_rows (mkStats 0 [] []) rows.

End Ex3.

(** ** Exercise 3 on the rows [csv.DictReader] really yields

    A line with fewer fields than the header leaves the missing columns
    bound to [None]; [None] has no [strip].  Here a row binds a column to
    [Some s] (the string [s]) or to [None] (Python's [None]), and a call
    either returns or raises [AttributeError].  (A line with more fields
    than the header adds one entry under the key [None], which no lookup
    of the exercises reaches.) *)

Module Ex3Reader.
Import Py.

Inductive outcome (A : Type) : Type :=
| Returns : A -> outcome A
| AttributeError : outcome A.

Arguments Returns {A} _.
Arguments AttributeError {A}.

Definition bind {A B : Type} (m : outcome A) (k : A -> outcome B)
  : outcome B :=
  match m with
  | Returns a => k a
  | AttributeError => AttributeError
  end.

#[global] Instance outcome_bind : MBind outcome :=
  fun A B k m => bind m k.

(** [row.get(k, default)] *)
Definition get (row : gmap string (option string)) (k : string)
    (default : option string) : option string :=
  match row !! k with Some v => v | None => default end.

(** [v.strip()] *)
Definition strip (v : option string) : outcome string :=
  match v with
  | Some s => Returns (Py.strip s)
  | None => AttributeError
  end.

Definition is_valid_row (row : gmap string (option string)) : outcome bool :=
  hostname ← strip (get row "hostname" (get row "name" (Some "")));
  ip ← strip (get row "ip" (get row "ip_address" (Some "")));
  Returns (truthy hostname && truthy ip).

Definition transform_row (row : gmap string (option string))
  : outcome (option Ex3.Device) :=
  valid ← is_valid_row row;
  if negb valid then Returns None
  else
    hostname ← strip (get row "hostname" (get row "name" (Some "")));
    ip ← strip (get row "ip" (get row "ip_address" (Some "")));
    dtype ← strip (get row "type" (get row "device_type" (Some "")));
    location ← strip (get row "loc" (get row "location" (Some "")));
    Returns (Some {| Ex3.hostname := Ex3.normalize_hostname hostname;
                     Ex3.ip_address := ip;
                     Ex3.device_type := Ex3.normalize_device_type dtype;
                     Ex3.location := Ex3.normalize_location location;
                     Ex3.status := "active" |}).

End Ex3Reader.

(** * Vocabulary of the statements *)

Import Py Re.

Fixpoint all_chars (p : ascii -> bool) (s : string) : bool :=
  match s with
  | EmptyString => true
  | String c r => p c && all_chars p r
  end.

Definition head_ok (s : string) : bool :=
  match s with
  | EmptyString => true
  | String c _ => negb (isspace c)
  end.

Fixpoint last_ok (s : string) : bool :=
  match s with
  | EmptyString => true
  | String c EmptyString => negb (isspace c)
  | String _ r => last_ok r
  end.

(** No blank at either end. *)
Definition trimmed (s : string) : bool := head_ok s && last_ok s.

Definition starts_with (p : ascii -> bool) (s : string) : bool :=
  match s with
  | EmptyString => false
  | String c _ => p c
  end.

Fixpoint ends_with (p : ascii -> bool) (s : string) : bool :=
  match s with
  | EmptyString => false
  | String c EmptyString => p c
  | String _ r => ends_with p r
  end.

Definition is_hyphen (c : ascii) : bool := Ascii.eqb c "-"%char.

(** A single alphanumeric character, or alphanumerics at both ends with
    only alphanumerics and hyphens between. *)
Definition hostname_shape (t : string) : Prop :=
  (exists c, t = String c "" /\ Ex2.alnum c = true)
  \/ (exists a m b, t = String a (m +:+ String b "")
                    /\ Ex2.alnum a = true /\ Ex2.alnum b = true
                    /\ all_chars Ex2.alnum_hyphen m = true).

(** One to three decimal digits. *)
Definition digit_group (g : string) : Prop :=
  (1 <= String.length g <= 3)%nat /\ all_chars isdigit g = true.

(** A digit group that reads as an integer of [0, 255]. *)
Definition octet (g : string) : Prop :=
  digit_group g /\ exists v, int g = Some v /\ (0 <= v <= 255)%Z.

(** Exactly four dot-separated groups. *)
Definition four_groups (P : string -> Prop) (t : string) : Prop :=
  exists a b c d,
    t = a +:+ "." +:+ b +:+ "." +:+ c +:+ "." +:+ d
    /\ P a /\ P b /\ P c /\ P d.

Definition in_range (g : string) : bool :=
  match int g with
  | Some v => ((0 <=? v) && (v <=? 255))%Z
  | None => false
  end.

(** First binding of [k] in a list of pairs. *)
Fixpoint assoc (l : list (string * string)) (k : string) : option string :=
  match l with
  | [] => None
  | (a, v) :: r => if String.eqb a k then Some v else assoc r k
  end.

Definition not_char (x : ascii) (c : ascii) : bool := negb (Ascii.eqb c x).

(** A character [str.lower] leaves alone. *)
Definition lower_fixed (c : ascii) : bool := Ascii.eqb (lower_char c) c.

(** The value a row gives for a column, with its alternate name. *)
Definition field (row : gmap string string) (k alt : string) : string :=
  get row k (get row alt "").

(** [is_valid_ip] as a total function. *)
Definition ip_ok (s : string) : bool :=
  matches Ex2.ip_pattern (strip s) && forallb in_range (split "."%char (strip s)).

Definition hostname_errors (h : string) : list string :=
  if negb (truthy h) then ["Missing hostname"]
  else if negb (Ex2.is_valid_hostname h)
       then ["Invalid hostname format: '" +:+ h +:+ "'"]
       else [].

Definition ip_errors (ip : string) : list string :=
  if negb (truthy ip) then ["Missing IP address"]
  else if negb (ip_ok ip) then ["Invalid IP address: '" +:+ ip +:+ "'"]
       else [].

Definition missing_error (v msg : string) : list string :=
  if negb (truthy v) then [msg] else [].

Definition row_errors (row : gmap string string) : list string :=
  hostname_errors (strip (field row "hostname" "name"))
  ++ ip_errors (strip (field row "ip" "ip_address"))
  ++ missing_error (strip (field row "type" "device_type")) "Missing device type"
  ++ missing_error (strip (field row "loc" "location")) "Missing location".

Definition cleaned_row (row : gmap string string) : gmap string string :=
  list_to_map
    [ ("hostname",
       replace "_" "-" (lower (strip (field row "hostname" "name"))));
      ("ip_address", strip (field row "ip" "ip_address"));
      ("device_type",
       Ex2.normalize_device_type (strip (field row "type" "device_type")));
      ("location", Ex2.normalize_location (strip (field row "loc" "location"))) ].

(** [a] does not come after [b]: the test the sort makes is [b < a]. *)
Definition key_le {A : Type} (key : A -> string) (a b : A) : Prop :=
  String.ltb (key b) (key a) = false.

Definition key_lt {A : Type} (key : A -> string) (a b : A) : Prop :=
  String.ltb (key a) (key b) = true.

(** The hostname column of the written records, header left out. *)
Definition hostname_column (records : list (list string)) : list string :=
  hd "" <$> tail records.

(** The Device [transform_row] builds from a row it accepts. *)
Definition device_of (row : gmap string string) : Ex3.Device :=
  {| Ex3.hostname :=
       Ex3.normalize_hostname (strip (field row "hostname" "name"));
     Ex3.ip_address := strip (field row "ip" "ip_address");
     Ex3.device_type :=
       Ex3.normalize_device_type (strip (field row "type" "device_type"));
     Ex3.location :=
       Ex3.normalize_location (strip (field row "loc" "location"));
     Ex3.status := "active" |}.

(** The table of section 4.3 of the specification. *)
Definition device_type_table : list (string * string) :=
  [ ("sw", "switch"); ("switch", "switch"); ("rtr", "router");
    ("router", "router"); ("fw", "firewall"); ("firewall", "firewall") ].

Definition row_c5 : gmap string string :=
  list_to_map
    [ ("hostname", "switch-01"); ("ip_address", "   ");
      ("device_type", "sw"); ("location", "Bldg A") ].

Definition row_c9 : gmap string string :=
  list_to_map
    [ ("hostname", " SW-Core-01 "); ("ip_address", "10.0.1.1");
      ("device_type", "sw"); ("location", "Bldg A") ].

Definition row_c6 : gmap string string :=
  list_to_map
    [ ("hostname", "bad host!"); ("ip_address", "NOT_ASSIGNED");
      ("device_type", "rtr"); ("location", "DC") ].

Definition row_c10 : gmap string string :=
  list_to_map
    [ ("hostname", "switch-01"); ("ip", "  "); ("ip_address", "10.0.1.1");
      ("device_type", "sw"); ("location", "Bldg A") ].

Definition row_sw_upper : gmap string string :=
  list_to_map
    [ ("hostname", "SW-01"); ("ip_address", "10.0.1.1");
      ("device_type", "sw"); ("location", "Bldg A") ].

Definition row_sw_under : gmap string string :=
  list_to_map
    [ ("hostname", "sw_01"); ("ip_address", "10.0.1.2");
      ("device_type", "switch"); ("location", "Bldg B") ].

(** The location table of both exercises. *)
Definition location_table : list (string * string) :=
  [ ("bldg a", "building-a"); ("building a", "building-a");
    ("bldg b", "building-b"); ("building b", "building-b");
    ("bldg c", "building-c"); ("building c", "building-c");
    ("dc", "data-center"); ("data center", "data-center");
    ("datacenter", "data-center") ].

Definition row_bad_formats : gmap string string :=
  list_to_map
    [ ("hostname", " sw_01 "); ("ip_address", "256.1.1.1");
      ("device_type", "sw"); ("location", "Bldg A") ].

(** The result [validate_row] computes for a row. *)
Definition row_result (n : Z) (row : gmap string string)
  : Ex2.ValidationResult :=
  {| Ex2.row_number := n;
     Ex2.is_valid := Nat.eqb (length (row_errors row)) 0;
     Ex2.errors := row_errors row;
     Ex2.cleaned_data :=
       match row_errors row with
       | [] => Some (cleaned_row row)
       | _ :: _ => None
       end |}.

Definition row_sw_third : gmap string string :=
  list_to_map
    [ ("hostname", "rtr-01"); ("ip_address", "10.0.0.1");
      ("device_type", "rtr"); ("location", "DC") ].

(** The rows whose column [col] holds [t], in their order. *)
Definition rows_with (col t : string) (rows : list (gmap string string))
  : list (gmap string string) :=
  filter (fun row => row !! col = Some t) rows.

(** Number of rows held by all the groups together. *)
Definition group_total (d : list (string * list (gmap string string))) : nat :=
  sum_list (length <$> d.*2).

Definition row_no_type : gmap string string :=
  list_to_map [ ("hostname", "sw-09"); ("ip_address", "10.0.9.9") ].

(** A count table that agrees with the rows read so far: distinct keys,
    each with the number of rows holding it, none with a zero count. *)
Definition tally_ok (col : string) (d : list (string * nat))
    (rows : list (gmap string string)) : Prop :=
  NoDup d.*1
  /\ (forall t, PyDict.get d t =
                if decide (rows_with col t rows = []) then None
                else Some (length (rows_with col t rows)))
  /\ sum_list d.*2 = length rows.

(** A row all of whose columns are strings, as the reader yields it. *)
Definition reader_row (row : gmap string string) : gmap string (option string) :=
  Some <$> row.

(** The value a reader row gives for a column, with its alternate name. *)
Definition reader_field (row : gmap string (option string)) (k alt : string)
  : option string :=
  Ex3Reader.get row k (Ex3Reader.get row alt (Some "")).


(** * Facts about the embedded built-ins *)

Section StringFacts.

Lemma app_cons c (s t : string) : String c s +:+ t = String c (s +:+ t).
Proof. reflexivity. Qed.

Lemma app_empty_l (t : string) : "" +:+ t = t.
Proof. reflexivity. Qed.

Lemma app_empty_r (s : string) : s +:+ "" = s.
Proof.
  induction s as [|c s IH]; [done |]. by rewrite app_cons, IH.
Qed.

Lemma app_assoc_str (s t u : string) : (s +:+ t) +:+ u = s +:+ (t +:+ u).
Proof.
  induction s as [|c s IH]; [done |]. by rewrite !app_cons, IH.
Qed.

Lemma app_eq_empty (s t : string) : s +:+ t = "" -> s = "" /\ t = "".
Proof. destruct s; [done | discriminate]. Qed.

Lemma all_chars_app p s t :
  all_chars p (s +:+ t) = all_chars p s && all_chars p t.
Proof.
  induction s as [|c s IH]; [done |].
  rewrite app_cons. simpl. by rewrite IH, andb_assoc.
Qed.

Lemma all_chars_impl (p q : ascii -> bool) s :
  (forall c, p c = true -> q c = true) ->
  all_chars p s = true -> all_chars q s = true.
Proof.
  intros Hpq. induction s as [|c s IH]; simpl; [done |].
  intros [Hc Hs]%andb_true_iff. rewrite (Hpq _ Hc). simpl. auto.
Qed.

Lemma lstrip_head_ok s : head_ok (lstrip s) = true.
Proof.
  induction s as [|c s IH]; simpl; [done |].
  destruct (isspace c) eqn:E; [done |]. simpl. by rewrite E.
Qed.

Lemma lstrip_fixed s : head_ok s = true -> lstrip s = s.
Proof.
  destruct s as [|c s]; simpl; [done |].
  by intros ->%negb_true_iff.
Qed.

Lemma rstrip_last_ok s : last_ok (rstrip s) = true.
Proof.
  induction s as [|c s IH]; simpl; [done |].
  destruct (rstrip s) as [|d r] eqn:E.
  - destruct (isspace c) eqn:Ec; simpl; [done | by rewrite Ec].
  - exact IH.
Qed.

Lemma rstrip_fixed s : last_ok s = true -> rstrip s = s.
Proof.
  induction s as [|c s IH]; simpl; [done |].
  destruct s as [|d r].
  - simpl. by intros ->%negb_true_iff.
  - intros H. rewrite (IH H). done.
Qed.

Lemma rstrip_head_ok s : head_ok s = true -> head_ok (rstrip s) = true.
Proof.
  destruct s as [|c s]; simpl; [done |].
  intros Hc. destruct (rstrip s); [| done].
  apply negb_true_iff in Hc. by rewrite Hc; simpl; rewrite Hc.
Qed.

Lemma strip_trimmed s : trimmed (strip s) = true.
Proof.
  unfold trimmed, strip. apply andb_true_iff. split.
  - apply rstrip_head_ok, lstrip_head_ok.
  - apply rstrip_last_ok.
Qed.

Lemma strip_fixed s : trimmed s = true -> strip s = s.
Proof.
  unfold trimmed, strip. intros [Hh Hl]%andb_true_iff.
  rewrite (lstrip_fixed _ Hh). by apply rstrip_fixed.
Qed.

Lemma strip_idem s : strip (strip s) = strip s.
Proof. apply strip_fixed, strip_trimmed. Qed.

Lemma all_chars_lstrip p s :
  all_chars p s = true -> all_chars p (lstrip s) = true.
Proof.
  induction s as [|c s IH]; simpl; [done |].
  intros [Hc Hs]%andb_true_iff.
  destruct (isspace c); [auto |]. simpl. by rewrite Hc, Hs.
Qed.

Lemma all_chars_rstrip p s :
  all_chars p s = true -> all_chars p (rstrip s) = true.
Proof.
  induction s as [|c s IH]; simpl; [done |].
  intros [Hc Hs]%andb_true_iff. specialize (IH Hs).
  destruct (rstrip s) as [|d r].
  - destruct (isspace c); simpl; [done | by rewrite Hc].
  - simpl in *. by rewrite Hc, IH.
Qed.

Lemma all_chars_strip p s :
  all_chars p s = true -> all_chars p (strip s) = true.
Proof. intros H. by apply all_chars_rstrip, all_chars_lstrip. Qed.

(** A character with no blank neighbours: trimming keeps the string. *)
Lemma trimmed_no_space s :
  all_chars (fun c => negb (isspace c)) s = true -> trimmed s = true.
Proof.
  unfold trimmed. intros H. apply andb_true_iff. split.
  - destruct s; simpl in *; [done |]. by apply andb_true_iff in H as [-> _].
  - induction s as [|c s IH]; simpl in *; [done |].
    apply andb_true_iff in H as [Hc Hs].
    destruct s; [done | auto].
Qed.

Lemma all_chars_unlstrip p s :
  (forall c, isspace c = true -> p c = true) ->
  all_chars p (lstrip s) = true -> all_chars p s = true.
Proof.
  intros Hsp. induction s as [|c s IH]; simpl; [done |].
  destruct (isspace c) eqn:E; [| done].
  intros H. by rewrite (Hsp c E), (IH H).
Qed.

Lemma all_chars_unrstrip p s :
  (forall c, isspace c = true -> p c = true) ->
  all_chars p (rstrip s) = true -> all_chars p s = true.
Proof.
  intros Hsp. induction s as [|c s IH]; simpl; [done |].
  destruct (rstrip s) as [|d r].
  - destruct (isspace c) eqn:E; simpl; intros H.
    + by rewrite (Hsp c E), IH.
    + apply andb_true_iff in H as [-> _]. by rewrite IH.
  - simpl. intros [-> H]%andb_true_iff. by rewrite IH.
Qed.

Lemma all_chars_unstrip p s :
  (forall c, isspace c = true -> p c = true) ->
  all_chars p (strip s) = true -> all_chars p s = true.
Proof.
  intros Hsp H. by apply all_chars_unlstrip, all_chars_unrstrip.
Qed.

End StringFacts.

(** ** The matcher agrees with the denotation *)

Section RegexFacts.

Lemma lang_void_inv s : ~ lang Void s.
Proof. inversion 1. Qed.

Lemma lang_eps_inv s : lang Eps s <-> s = "".
Proof.
  split; [by inversion 1 | intros ->; constructor].
Qed.

Lemma lang_cls_inv p s :
  lang (Cls p) s <-> exists c, s = String c "" /\ p c = true.
Proof.
  split.
  - inversion 1; subst; eauto.
  - intros (c & -> & Hc). by constructor.
Qed.

Lemma lang_cat_inv a b s :
  lang (Cat a b) s <-> exists u v, s = u +:+ v /\ lang a u /\ lang b v.
Proof.
  split.
  - inversion 1; subst; eauto.
  - intros (u & v & -> & Hu & Hv). by constructor.
Qed.

Lemma lang_alt_inv a b s : lang (Alt a b) s <-> lang a s \/ lang b s.
Proof.
  split.
  - inversion 1; subst; auto.
  - intros [H|H]; [by apply lang_alt_l | by apply lang_alt_r].
Qed.

Lemma lang_nullable r : nullable r = true <-> lang r "".
Proof.
  induction r as [| |p|a IHa b IHb|a IHa b IHb|a IHa]; simpl.
  - split; [done | intros H; by apply lang_void_inv in H].
  - split; [constructor | done].
  - rewrite lang_cls_inv. split; [done | by intros (c & ? & _)].
  - rewrite andb_true_iff, IHa, IHb, lang_cat_inv. split.
    + intros [Ha Hb]. by exists "", "".
    + intros (u & v & E & Hu & Hv). symmetry in E.
      apply app_eq_empty in E as [-> ->]. done.
  - by rewrite orb_true_iff, IHa, IHb, lang_alt_inv.
  - split; [constructor | done].
Qed.

Lemma lang_deriv_sound c r :
  forall s, lang (deriv c r) s -> lang r (String c s).
Proof.
  induction r as [| |p|a IHa b IHb|a IHa b IHb|a IHa]; simpl; intros s H.
  - by apply lang_void_inv in H.
  - by apply lang_void_inv in H.
  - destruct (p c) eqn:E; [| by apply lang_void_inv in H].
    apply lang_eps_inv in H as ->. by constructor.
  - assert (Hcat : forall w, lang (Cat (deriv c a) b) w ->
                             lang (Cat a b) (String c w)).
    { intros w (u & v & -> & Hu & Hv)%lang_cat_inv.
      rewrite <- app_cons. constructor; auto. }
    destruct (nullable a) eqn:E; [| auto].
    apply lang_alt_inv in H as [H|H]; [auto |].
    apply lang_nullable in E.
    apply (lang_cat a b "" (String c s)); auto.
  - apply lang_alt_inv in H as [H|H];
      [apply lang_alt_l | apply lang_alt_r]; auto.
  - apply lang_cat_inv in H as (u & v & -> & Hu & Hv).
    rewrite <- app_cons. constructor; auto.
Qed.

Lemma lang_star_cons c a s :
  (forall w, lang a (String c w) -> lang (deriv c a) w) ->
  lang (Star a) (String c s) -> lang (Cat (deriv c a) (Star a)) s.
Proof.
  intros IHa H.
  remember (Star a) as r eqn:Er. remember (String c s) as w eqn:Ew.
  revert s Ew.
  induction H as [| | | | | |a' s1 t H1 _ H2 IH2];
    try discriminate; intros s Ew.
  injection Er as ->.
  destruct s1 as [|d s1].
  - rewrite app_empty_l in Ew. by apply IH2.
  - rewrite app_cons in Ew. injection Ew as -> <-.
    constructor; auto.
Qed.

Lemma lang_deriv_complete c r :
  forall s, lang r (String c s) -> lang (deriv c r) s.
Proof.
  induction r as [| |p|a IHa b IHb|a IHa b IHb|a IHa]; simpl; intros s H.
  - by apply lang_void_inv in H.
  - by apply lang_eps_inv in H.
  - apply lang_cls_inv in H as (d & [= -> ->] & Hd).
    rewrite Hd. constructor.
  - apply lang_cat_inv in H as (u & v & E & Hu & Hv).
    destruct u as [|d u].
    + rewrite app_empty_l in E. subst v.
      apply lang_nullable in Hu. rewrite Hu. apply lang_alt_r. auto.
    + rewrite app_cons in E. injection E as -> ->.
      assert (lang (Cat (deriv d a) b) (u +:+ v)) by (constructor; auto).
      destruct (nullable a); [by apply lang_alt_l | done].
  - apply lang_alt_inv in H as [H|H];
      [apply lang_alt_l | apply lang_alt_r]; auto.
  - by apply lang_star_cons.
Qed.

Theorem matches_lang r s : matches r s = true <-> lang r s.
Proof.
  revert r. induction s as [|c s IH]; intros r; simpl.
  - apply lang_nullable.
  - rewrite IH. split; [apply lang_deriv_sound | apply lang_deriv_complete].
Qed.

Lemma lang_star_cls p s : lang (Star (Cls p)) s <-> all_chars p s = true.
Proof.
  split.
  - intros H. remember (Star (Cls p)) as r eqn:Er.
    induction H as [| | | | | |a s1 t H1 _ H2 IH2]; try discriminate; [done |].
    injection Er as ->. apply lang_cls_inv in H1 as (c & -> & Hc).
    rewrite app_cons, app_empty_l. simpl. rewrite Hc. by apply IH2.
  - induction s as [|c s IH]; simpl; [constructor |].
    intros [Hc Hs]%andb_true_iff.
    change (String c s) with (String c "" +:+ s).
    constructor; [by constructor | auto].
Qed.

(** After trimming there is no final line feed for [$] to step over. *)
Lemma chomp_last_ok s t : chomp s = Some t -> last_ok s = false.
Proof.
  revert t. induction s as [|c s IH]; intros t; simpl; [done |].
  destruct s as [|d r].
  - destruct (Ascii.eqb_spec c "010"%char) as [->|]; [done | done].
  - destruct (chomp (String d r)) eqn:E; [| done]. intros _. eapply IH. done.
Qed.

Lemma re_match_trimmed r s :
  trimmed s = true -> re_match r s = matches r s.
Proof.
  intros [_ Hl]%andb_true_iff. unfold re_match.
  destruct (chomp s) eqn:E; [| by rewrite orb_false_r].
  apply chomp_last_ok in E. congruence.
Qed.

End RegexFacts.

(** ** Character classes *)

Section CharFacts.

Ltac by_cases c :=
  destruct c as [[] [] [] [] [] [] [] []]; vm_compute; congruence.

Lemma alnum_not_hyphen c : Ex2.alnum c = true -> Ascii.eqb c "-"%char = false.
Proof. by_cases c. Qed.

Lemma alnum_hyphen_not_space c : Ex2.alnum_hyphen c = true -> isspace c = false.
Proof. by_cases c. Qed.

Lemma alnum_hyphen_not_underscore c :
  Ex2.alnum_hyphen c = true -> Ascii.eqb c "_"%char = false.
Proof. by_cases c. Qed.

Lemma isdigit_not_space c : isdigit c = true -> isspace c = false.
Proof. by_cases c. Qed.

Lemma isdigit_not_dot c : isdigit c = true -> Ex2.is_dot c = false.
Proof. by_cases c. Qed.

Lemma digit_value_range c : isdigit c = true -> (0 <= digit_value c <= 9)%Z.
Proof.
  destruct c as [[] [] [] [] [] [] [] []]; vm_compute;
    (discriminate || (intros _; split; discriminate)).
Qed.

Lemma lower_char_idem c : lower_char (lower_char c) = lower_char c.
Proof. by_cases c. Qed.

Lemma lower_char_space c : isspace (lower_char c) = isspace c.
Proof. by_cases c. Qed.

Lemma lower_char_underscore c :
  Ascii.eqb (lower_char c) "_"%char = Ascii.eqb c "_"%char.
Proof. by_cases c. Qed.

End CharFacts.

(** ** Hostname validator *)

Section HostnameFacts.
Import Ex2.

Lemma lang_hostname_pattern t : lang hostname_pattern t <-> hostname_shape t.
Proof.
  unfold hostname_pattern, hostname_shape.
  rewrite lang_alt_inv, lang_cls_inv. split.
  - intros [H | H]; [right | by left].
    apply lang_cat_inv in H as (u & v & -> & Hu & Hv).
    apply lang_cls_inv in Hu as (a & -> & Ha).
    apply lang_cat_inv in Hv as (m & w & -> & Hm & Hw).
    apply lang_cls_inv in Hw as (b & -> & Hb).
    apply lang_star_cls in Hm. by exists a, m, b.
  - intros [H | (a & m & b & -> & Ha & Hb & Hm)]; [by right | left].
    change (String a (m +:+ String b "")) with (String a "" +:+ (m +:+ String b "")).
    constructor; [by constructor |].
    constructor; [by apply lang_star_cls | by constructor].
Qed.

Lemma ends_with_snoc p m b : ends_with p (m +:+ String b "") = p b.
Proof.
  induction m as [|c m IH]; [done |].
  rewrite app_cons. simpl. rewrite IH.
  destruct (m +:+ String b "") eqn:E; [| done].
  by destruct m.
Qed.

Lemma snoc_decompose c s : exists m b, String c s = m +:+ String b "".
Proof.
  revert c. induction s as [|d s IH]; intros c.
  - by exists "", c.
  - destruct (IH d) as (m & b & E). exists (String c m), b.
    by rewrite app_cons, <- E.
Qed.

Lemma hostname_shape_chars t :
  hostname_shape t ->
  all_chars alnum_hyphen t = true
  /\ starts_with is_hyphen t = false /\ ends_with is_hyphen t = false.
Proof.
  assert (Hah : forall c, alnum c = true -> alnum_hyphen c = true).
  { intros c Hc. unfold alnum_hyphen. by rewrite Hc. }
  intros [(c & -> & Hc) | (a & m & b & -> & Ha & Hb & Hm)].
  - simpl. rewrite (Hah _ Hc). unfold is_hyphen.
    by rewrite (alnum_not_hyphen _ Hc).
  - split; [| split].
    + simpl. rewrite all_chars_app. simpl.
      by rewrite (Hah _ Ha), Hm, (Hah _ Hb).
    + simpl. by apply alnum_not_hyphen.
    + rewrite <- app_cons, ends_with_snoc. by apply alnum_not_hyphen.
Qed.

Lemma chars_hostname_shape t :
  t <> "" -> all_chars alnum_hyphen t = true ->
  starts_with is_hyphen t = false -> ends_with is_hyphen t = false ->
  hostname_shape t.
Proof.
  assert (Hal : forall c, alnum_hyphen c = true -> is_hyphen c = false ->
                          alnum c = true).
  { intros c. unfold alnum_hyphen, is_hyphen. intros H E.
    rewrite E, orb_false_r in H. done. }
  destruct t as [|a t]; [done |]. intros _ Hall Hs He.
  simpl in Hall, Hs. apply andb_true_iff in Hall as [Ha Ht].
  destruct t as [|d t].
  - left. exists a. auto.
  - right. destruct (snoc_decompose d t) as (m & b & E).
    rewrite E in *. rewrite <- app_cons, ends_with_snoc in He.
    rewrite all_chars_app in Ht. simpl in Ht.
    apply andb_true_iff in Ht as [Hm Hb]. rewrite andb_true_r in Hb.
    exists a, m, b. auto.
Qed.

Lemma is_valid_hostname_strip s :
  is_valid_hostname s = matches hostname_pattern (strip s).
Proof.
  unfold is_valid_hostname.
  rewrite (re_match_trimmed _ _ (strip_trimmed s)).
  destruct s as [|c s]; [done |]. simpl truthy at 1. simpl negb at 1.
  rewrite orb_false_l.
  destruct (strip (String c s)) eqn:E; [done | done].
Qed.

Lemma is_valid_hostname_shape s :
  is_valid_hostname s = true <-> hostname_shape (strip s).
Proof.
  by rewrite is_valid_hostname_strip, matches_lang, lang_hostname_pattern.
Qed.

End HostnameFacts.

(** ** IPv4 validator *)

Section IpFacts.
Import Ex2.

Lemma lang_digit_group g :
  lang (rep 1 3 (Cls isdigit)) g <-> digit_group g.
Proof.
  unfold rep, digit_group. simpl. split.
  - intros (u & v & -> & Hu & Hv)%lang_cat_inv.
    apply lang_cat_inv in Hu as (u1 & u2 & -> & (c1 & -> & H1)%lang_cls_inv
                                   & ->%lang_eps_inv).
    apply lang_alt_inv in Hv as [Hv | ->%lang_eps_inv].
    + apply lang_cat_inv in Hv as (v1 & v2 & -> & (c2 & -> & H2)%lang_cls_inv & Hv).
      apply lang_alt_inv in Hv as [Hv | ->%lang_eps_inv].
      * apply lang_cat_inv in Hv as (w1 & w2 & -> & (c3 & -> & H3)%lang_cls_inv
                                       & ->%lang_eps_inv).
        vm_compute String.length. simpl. rewrite H1, H2, H3. split; [lia | done].
      * vm_compute String.length. simpl. rewrite H1, H2. split; [lia | done].
    + vm_compute String.length. simpl. rewrite H1. split; [lia | done].
  - intros [Hlen Hd].
    destruct g as [|c1 g]; [simpl in Hlen; lia |].
    simpl in Hd. apply andb_true_iff in Hd as [H1 Hd].
    change (String c1 g) with ((String c1 "" +:+ "") +:+ g).
    constructor; [constructor; [by constructor | constructor] |].
    destruct g as [|c2 g]; [apply lang_alt_r; constructor |].
    simpl in Hd. apply andb_true_iff in Hd as [H2 Hd].
    apply lang_alt_l.
    change (String c2 g) with (String c2 "" +:+ g).
    constructor; [by constructor |].
    destruct g as [|c3 g]; [apply lang_alt_r; constructor |].
    simpl in Hd. apply andb_true_iff in Hd as [H3 Hd].
    destruct g as [|c4 g]; [| simpl in Hlen; lia].
    apply lang_alt_l.
    change (String c3 "") with (String c3 "" +:+ "").
    constructor; [by constructor | constructor].
Qed.

Lemma is_dot_eq c : is_dot c = true -> c = "."%char.
Proof. unfold is_dot. by intros ?%Ascii.eqb_eq. Qed.

Lemma lang_ip_pattern t : lang ip_pattern t <-> four_groups digit_group t.
Proof.
  unfold ip_pattern, four_groups.
  remember (rep 1 3 (Cls isdigit)) as G eqn:EG. simpl. split.
  - intros (u & d & -> & Hu & Hd)%lang_cat_inv.
    apply lang_cat_inv in Hu as (ua & u1 & -> & Ha & Hu).
    apply lang_cat_inv in Hu as (ub & u2 & -> & Hb & Hu).
    apply lang_cat_inv in Hu as (uc & u3 & -> & Hc & ->%lang_eps_inv).
    apply lang_cat_inv in Ha as (a & x & -> & Ha & (? & -> & ->%is_dot_eq)%lang_cls_inv).
    apply lang_cat_inv in Hb as (b & y & -> & Hb & (? & -> & ->%is_dot_eq)%lang_cls_inv).
    apply lang_cat_inv in Hc as (c & z & -> & Hc & (? & -> & ->%is_dot_eq)%lang_cls_inv).
    subst G. apply lang_digit_group in Ha, Hb, Hc, Hd.
    exists a, b, c, d. split; [| done].
    by rewrite app_empty_r, !app_assoc_str.
  - intros (a & b & c & d & -> & Ha & Hb & Hc & Hd).
    apply lang_digit_group in Ha, Hb, Hc, Hd. subst G.
    assert (Hdot : lang (Cls is_dot) ".") by by constructor.
    replace (a +:+ "." +:+ b +:+ "." +:+ c +:+ "." +:+ d)
      with (((a +:+ ".") +:+ ((b +:+ ".") +:+ ((c +:+ ".") +:+ "")))
            +:+ d)
      by by rewrite app_empty_r, !app_assoc_str.
    repeat (constructor; try done).
Qed.

Lemma split_nonempty sep s : split sep s <> [].
Proof.
  destruct s as [|c s]; simpl; [done |].
  destruct (Ascii.eqb c sep); [done |]. by destruct (split sep s).
Qed.

Lemma split_no_sep sep a :
  all_chars (fun c => negb (Ascii.eqb c sep)) a = true -> split sep a = [a].
Proof.
  induction a as [|c a IH]; simpl; [done |].
  intros [Hc Ha]%andb_true_iff. apply negb_true_iff in Hc.
  by rewrite Hc, (IH Ha).
Qed.

Lemma split_app sep a rest :
  all_chars (fun c => negb (Ascii.eqb c sep)) a = true ->
  split sep (a +:+ String sep rest) = a :: split sep rest.
Proof.
  induction a as [|c a IH]; intros H.
  - rewrite app_empty_l. simpl. by rewrite Ascii.eqb_refl.
  - simpl in H. apply andb_true_iff in H as [Hc Ha].
    apply negb_true_iff in Hc.
    rewrite app_cons. simpl. by rewrite Hc, (IH Ha).
Qed.

Lemma digit_group_no_dot g :
  digit_group g ->
  all_chars (fun c => negb (Ascii.eqb c "."%char)) g = true.
Proof.
  intros [_ H]. eapply all_chars_impl; [| exact H].
  intros c Hc. apply isdigit_not_dot in Hc. unfold is_dot in Hc.
  by rewrite Hc.
Qed.

Lemma split_four_groups a b c d :
  digit_group a -> digit_group b -> digit_group c -> digit_group d ->
  split "."%char (a +:+ "." +:+ b +:+ "." +:+ c +:+ "." +:+ d) = [a; b; c; d].
Proof.
  intros Ha Hb Hc Hd. rewrite !app_cons, !app_empty_l.
  rewrite !split_app by by apply digit_group_no_dot.
  by rewrite split_no_sep by by apply digit_group_no_dot.
Qed.

Lemma int_acc_digits g :
  all_chars isdigit g = true ->
  forall acc, (0 <= acc)%Z -> exists v, int_acc acc g = Some v /\ (0 <= v)%Z.
Proof.
  induction g as [|c g IH]; simpl; intros H acc Hacc; [eauto |].
  apply andb_true_iff in H as [Hc Hg]. rewrite Hc.
  apply IH; [done |]. pose proof (digit_value_range c Hc). lia.
Qed.

Lemma int_digit_group g :
  digit_group g -> exists v, int g = Some v /\ (0 <= v)%Z.
Proof.
  intros [Hlen Hd]. destruct g as [|c g]; [simpl in Hlen; lia |].
  unfold int. by apply int_acc_digits.
Qed.

Lemma in_range_octet g : digit_group g -> in_range g = true <-> octet g.
Proof.
  intros Hg. unfold in_range, octet. split.
  - destruct (int g) as [v|]; [| done].
    intros [?%Z.leb_le ?%Z.leb_le]%andb_true_iff. eauto.
  - intros (_ & v & -> & Hlo & Hhi).
    apply andb_true_iff. split; by apply Z.leb_le.
Qed.

Lemma all_octets_groups l :
  Forall digit_group l -> all_octets l = Some (forallb in_range l).
Proof.
  induction 1 as [|g l Hg _ IH]; simpl; [done |].
  unfold in_range at 1.
  destruct (int_digit_group g Hg) as (v & -> & _). simpl.
  destruct ((0 <=? v)%Z && (v <=? 255)%Z); [exact IH | done].
Qed.

Lemma is_valid_ip_unfold s :
  is_valid_ip s =
    if matches ip_pattern (strip s)
    then all_octets (split "."%char (strip s))
    else Some false.
Proof.
  unfold is_valid_ip.
  rewrite (re_match_trimmed _ _ (strip_trimmed s)).
  destruct s as [|c s]; [done |]. simpl truthy at 1. simpl negb at 1.
  rewrite orb_false_l.
  destruct (strip (String c s)) eqn:E; [done |]. simpl truthy. simpl negb at 1.
  by destruct (matches ip_pattern _).
Qed.

Lemma octet_digit_group g : octet g -> digit_group g.
Proof. by intros [? _]. Qed.

End IpFacts.

(** ** Normalisers *)

Section NormalizerFacts.

Lemma list_to_map_assoc (l : list (string * string)) (k : string) :
  (list_to_map l : gmap string string) !! k = assoc l k.
Proof.
  induction l as [|[a v] l IH]; [done |].
  rewrite list_to_map_cons. simpl.
  destruct (String.eqb_spec a k) as [-> | Hne].
  - by rewrite lookup_insert_eq.
  - by rewrite lookup_insert_ne.
Qed.

Lemma get_list_to_map l k d :
  get (list_to_map l) k d = match assoc l k with Some v => v | None => d end.
Proof. unfold get. by rewrite list_to_map_assoc. Qed.

Lemma lower_idem s : lower (lower s) = lower s.
Proof.
  induction s as [|c s IH]; simpl; [done |].
  by rewrite lower_char_idem, IH.
Qed.

Lemma lstrip_lower s : lstrip (lower s) = lower (lstrip s).
Proof.
  induction s as [|c s IH]; simpl; [done |].
  rewrite lower_char_space. by destruct (isspace c).
Qed.

Lemma rstrip_lower s : rstrip (lower s) = lower (rstrip s).
Proof.
  induction s as [|c s IH]; simpl; [done |].
  rewrite IH, lower_char_space.
  destruct (rstrip s); simpl; [by destruct (isspace c) | done].
Qed.

Lemma strip_lower s : strip (lower s) = lower (strip s).
Proof. unfold strip. by rewrite lstrip_lower, rstrip_lower. Qed.

(** The lower-cased, trimmed form is a fixed point of both steps. *)
Lemma strip_lower_fixed s :
  strip (lower (strip (lower s))) = strip (lower s).
Proof. by rewrite (strip_lower s), lower_idem, <- strip_lower, strip_idem. Qed.

Lemma lower_all_fixed s : all_chars lower_fixed (lower s) = true.
Proof.
  induction s as [|c s IH]; simpl; [done |].
  unfold lower_fixed at 1. by rewrite lower_char_idem, Ascii.eqb_refl.
Qed.

Lemma lower_fixed_id s : all_chars lower_fixed s = true -> lower s = s.
Proof.
  induction s as [|c s IH]; simpl; [done |].
  intros [Hc Hs]%andb_true_iff. apply Ascii.eqb_eq in Hc.
  by rewrite Hc, (IH Hs).
Qed.

Lemma replace_fixed old new s :
  all_chars (not_char old) s = true -> replace old new s = s.
Proof.
  induction s as [|c s IH]; simpl; [done |].
  intros [Hc Hs]%andb_true_iff. apply negb_true_iff in Hc.
  by rewrite Hc, (IH Hs).
Qed.

Lemma replace_no_old old new s :
  new <> old -> all_chars (not_char old) (replace old new s) = true.
Proof.
  intros Hne. induction s as [|c s IH]; simpl; [done |].
  rewrite IH, andb_true_r. unfold not_char.
  destruct (Ascii.eqb c old) eqn:E; [| by rewrite E].
  apply negb_true_iff. by apply Ascii.eqb_neq.
Qed.

Lemma all_chars_replace p old new s :
  p new = true -> all_chars p s = true ->
  all_chars p (replace old new s) = true.
Proof.
  intros Hn. induction s as [|c s IH]; simpl; [done |].
  intros [Hc Hs]%andb_true_iff. rewrite (IH Hs), andb_true_r.
  by destruct (Ascii.eqb c old).
Qed.

Lemma replace_inv old new s t :
  replace old new s = t -> all_chars (not_char new) t = true -> s = t.
Proof.
  revert t. induction s as [|c s IH]; intros t; simpl; [done |].
  intros <-. simpl. intros [Hc Hs]%andb_true_iff.
  f_equal; [| by apply IH].
  destruct (Ascii.eqb c old); [| done].
  unfold not_char in Hc. by rewrite Ascii.eqb_refl in Hc.
Qed.

Lemma trimmed_replace old new s :
  isspace new = false -> trimmed s = true ->
  trimmed (replace old new s) = true.
Proof.
  unfold trimmed. intros Hn [Hh Hl]%andb_true_iff.
  apply andb_true_iff. split.
  - destruct s as [|c s]; simpl in *; [done |].
    destruct (Ascii.eqb c old); [by rewrite Hn | done].
  - clear Hh. induction s as [|c s IH]; [done |].
    destruct s as [|d s].
    + simpl in *. destruct (Ascii.eqb c old); [by rewrite Hn | done].
    + change (last_ok (replace old new (String d s)) = true). by apply IH.
Qed.

(** *** Device type *)

Lemma device_type_unfold s :
  Ex2.normalize_device_type s =
    match assoc
            [ ("sw", "switch"); ("switch", "switch");
              ("rtr", "router"); ("router", "router");
              ("fw", "firewall"); ("firewall", "firewall") ]
            (strip (lower s)) with
    | Some v => v
    | None => strip (lower s)
    end.
Proof. unfold Ex2.normalize_device_type. apply get_list_to_map. Qed.

Lemma device_type_same s :
  Ex3.normalize_device_type s = Ex2.normalize_device_type s.
Proof. reflexivity. Qed.

Ltac table_case k :=
  match goal with
  | |- context [String.eqb ?a k] =>
      let E := fresh "E" in
      destruct (String.eqb a k) eqn:E;
      [apply String.eqb_eq in E; subst k | ]
  end.

Lemma device_type_idem s :
  Ex2.normalize_device_type (Ex2.normalize_device_type s)
  = Ex2.normalize_device_type s.
Proof.
  pose proof (strip_lower_fixed s) as Hfix.
  rewrite (device_type_unfold s).
  remember (strip (lower s)) as k eqn:Hk. clear Hk s. cbn [assoc].
  repeat (table_case k; [reflexivity |]).
  rewrite device_type_unfold, Hfix. cbn [assoc].
  by rewrite E, E0, E1, E2, E3, E4.
Qed.

(** *** Location *)

Lemma location_unfold s :
  Ex2.normalize_location s =
    match assoc
            [ ("bldg a", "building-a"); ("building a", "building-a");
              ("bldg b", "building-b"); ("building b", "building-b");
              ("bldg c", "building-c"); ("building c", "building-c");
              ("dc", "data-center"); ("data center", "data-center");
              ("datacenter", "data-center") ]
            (strip (lower s)) with
    | Some v => v
    | None => replace " " "-" (strip (lower s))
    end.
Proof. unfold Ex2.normalize_location. apply get_list_to_map. Qed.

Lemma location_same s :
  Ex3.normalize_location s = Ex2.normalize_location s.
Proof. reflexivity. Qed.

Lemma location_idem s :
  Ex2.normalize_location (Ex2.normalize_location s)
  = Ex2.normalize_location s.
Proof.
  rewrite (location_unfold s).
  assert (Hlow : all_chars lower_fixed (strip (lower s)) = true)
    by apply all_chars_strip, lower_all_fixed.
  pose proof (strip_trimmed (lower s)) as Htrim.
  remember (strip (lower s)) as k eqn:Hk. clear Hk s. cbn [assoc].
  repeat (table_case k; [reflexivity |]).
  set (r := replace " " "-" k).
  assert (Hsp : all_chars (not_char " ") r = true)
    by by apply replace_no_old.
  assert (Hr : strip (lower r) = r).
  { rewrite lower_fixed_id by by apply all_chars_replace.
    apply strip_fixed. by apply trimmed_replace. }
  rewrite location_unfold, Hr. cbn [assoc].
  repeat match goal with
  | |- context [String.eqb ?a r] =>
      let F := fresh "F" in
      destruct (String.eqb a r) eqn:F;
      [ exfalso; apply String.eqb_eq in F;
        first [ rewrite <- F in Hsp; vm_compute in Hsp; discriminate
              | symmetry in F; apply replace_inv in F; [| reflexivity];
                subst k; discriminate ]
      | ]
  end.
  by apply replace_fixed.
Qed.

(** *** Hostname (write pipeline) *)

Lemma normalize_hostname_chars s :
  let h := Ex3.normalize_hostname s in
  all_chars lower_fixed h = true /\ trimmed h = true
  /\ all_chars (not_char "_") h = true /\ all_chars (not_char " ") h = true.
Proof.
  unfold Ex3.normalize_hostname. repeat split.
  - do 2 (apply all_chars_replace; [done |]).
    apply all_chars_strip, lower_all_fixed.
  - do 2 (apply trimmed_replace; [done |]). apply strip_trimmed.
  - apply all_chars_replace; [done |]. by apply replace_no_old.
  - by apply replace_no_old.
Qed.

Lemma normalize_hostname_idem s :
  Ex3.normalize_hostname (Ex3.normalize_hostname s)
  = Ex3.normalize_hostname s.
Proof.
  destruct (normalize_hostname_chars s) as (Hlow & Htrim & Hus & Hsp).
  set (h := Ex3.normalize_hostname s) in *.
  unfold Ex3.normalize_hostname at 1.
  rewrite (lower_fixed_id h Hlow), (strip_fixed h Htrim).
  rewrite (replace_fixed "_" "-" h Hus). by apply replace_fixed.
Qed.

End NormalizerFacts.

(** ** Row validator *)

Section RowFacts.
Import Ex2.

Lemma is_valid_ip_total s : is_valid_ip s = Some (ip_ok s).
Proof.
  rewrite is_valid_ip_unfold. unfold ip_ok.
  destruct (matches ip_pattern (strip s)) eqn:E; [| done].
  apply matches_lang, lang_ip_pattern in E
    as (a & b & c & d & -> & Ha & Hb & Hc & Hd).
  rewrite split_four_groups by done.
  apply all_octets_groups. by repeat apply Forall_cons_2.
Qed.

Lemma validate_row_unfold n row :
  validate_row n row =
    Some {| row_number := n;
            is_valid := Nat.eqb (length (row_errors row)) 0;
            errors := row_errors row;
            cleaned_data :=
              match row_errors row with
              | [] => Some (cleaned_row row)
              | _ :: _ => None
              end |}.
Proof.
  unfold validate_row, row_errors, cleaned_row, field,
    hostname_errors, ip_errors, missing_error.
  rewrite is_valid_ip_total.
  destruct (truthy (strip (get row "hostname" (get row "name" ""))));
    destruct (is_valid_hostname (strip (get row "hostname" (get row "name" ""))));
    destruct (truthy (strip (get row "ip" (get row "ip_address" ""))));
    destruct (ip_ok (strip (get row "ip" (get row "ip_address" ""))));
    destruct (truthy (strip (get row "type" (get row "device_type" ""))));
    destruct (truthy (strip (get row "loc" (get row "location" ""))));
    reflexivity.
Qed.

Lemma truthy_ne s : truthy s = true <-> s <> "".
Proof. destruct s; simpl; split; congruence. Qed.

Lemma truthy_empty s : truthy s = false <-> s = "".
Proof. destruct s; simpl; split; congruence. Qed.

Lemma app_nil_parts {A} (a b c d : list A) :
  a ++ b ++ c ++ d = [] <-> a = [] /\ b = [] /\ c = [] /\ d = [].
Proof.
  split.
  - intros H. apply app_eq_nil in H as [-> H].
    apply app_eq_nil in H as [-> H]. by apply app_eq_nil in H as [-> ->].
  - by intros (-> & -> & -> & ->).
Qed.

Lemma hostname_errors_nil h :
  hostname_errors h = [] <-> h <> "" /\ is_valid_hostname h = true.
Proof.
  unfold hostname_errors. rewrite <- truthy_ne.
  destruct (truthy h), (is_valid_hostname h); simpl; intuition congruence.
Qed.

Lemma field_present row k alt v : row !! k = Some v -> field row k alt = v.
Proof. unfold field, get. by intros ->. Qed.

Lemma field_absent row k alt :
  row !! k = None -> field row k alt = get row alt "".
Proof. unfold field, get at 1. by intros ->. Qed.

Lemma field_insert_other row k alt j x :
  j <> k -> is_Some (row !! k) ->
  field (<[j:=x]> row) k alt = field row k alt.
Proof.
  intros Hne [v Hv].
  rewrite (field_present row k alt v Hv).
  apply field_present. by rewrite lookup_insert_ne.
Qed.

Lemma field_insert_unrelated row k alt j x :
  j <> k -> j <> alt -> field (<[j:=x]> row) k alt = field row k alt.
Proof.
  intros Hk Ha. unfold field, get. by rewrite !lookup_insert_ne.
Qed.

End RowFacts.

(** ** Sorting by a string key *)

Section SortFacts.
Context {A : Type} (key : A -> string).

Local Abbreviation key_le := (key_le key).
Local Abbreviation key_lt := (key_lt key).

Lemma ltb_false_leb s t : String.ltb t s = false <-> String.leb s t = true.
Proof.
  unfold String.ltb, String.leb. rewrite (String.compare_antisym t s).
  destruct (String.compare s t); simpl; split; congruence.
Qed.

Lemma compare_refl s : String.compare s s = Eq.
Proof.
  induction s as [|c s IH]; simpl; [done |].
  unfold Ascii.compare. by rewrite N.compare_refl.
Qed.

Lemma key_le_trans a b c : key_le a b -> key_le b c -> key_le a c.
Proof.
  unfold key_le. rewrite !ltb_false_leb. intros H1 H2.
  apply Is_true_true. apply Is_true_true in H1, H2.
  exact (transitivity (R := String.le) H1 H2).
Qed.

Lemma key_lt_le a b : key_lt a b -> key_le a b.
Proof.
  unfold key_lt, key_le, String.ltb.
  rewrite (String.compare_antisym (key b) (key a)).
  by destruct (String.compare (key a) (key b)).
Qed.

Lemma key_le_ne_lt a b : key_le a b -> key a <> key b -> key_lt a b.
Proof.
  unfold key_lt, key_le, String.ltb.
  rewrite (String.compare_antisym (key b) (key a)).
  destruct (String.compare (key a) (key b)) eqn:E; simpl; try done.
  apply String.compare_eq_iff in E. done.
Qed.

Lemma insert_by_perm x l : Permutation (PySort.insert_by key x l) (x :: l).
Proof.
  induction l as [|y l IH]; simpl; [done |].
  destruct (String.ltb (key y) (key x)); [| done].
  rewrite IH. apply perm_swap.
Qed.

Lemma sort_by_perm l : Permutation (PySort.sort_by key l) l.
Proof.
  induction l as [|x l IH]; simpl; [done |].
  rewrite insert_by_perm. by constructor.
Qed.

Lemma insert_by_sorted x l :
  StronglySorted key_le l -> StronglySorted key_le (PySort.insert_by key x l).
Proof.
  induction 1 as [|y l Hs IH Hy]; simpl.
  - by repeat constructor.
  - destruct (String.ltb (key y) (key x)) eqn:E.
    + constructor; [done |].
      rewrite insert_by_perm. constructor; [| done].
      by apply key_lt_le.
    + constructor; [by constructor |].
      constructor; [exact E |].
      eapply Forall_impl; [exact Hy |].
      intros z Hz. by apply (key_le_trans x y z).
Qed.

Lemma sort_by_sorted l : StronglySorted key_le (PySort.sort_by key l).
Proof.
  induction l as [|x l IH]; simpl; [constructor |].
  by apply insert_by_sorted.
Qed.

Lemma sorted_strict l :
  StronglySorted key_le l -> NoDup (key <$> l) -> StronglySorted key_lt l.
Proof.
  induction 1 as [|y l Hs IH Hy]; simpl; [constructor |].
  intros [Hny Hnd]%NoDup_cons. constructor; [auto |].
  apply Forall_forall. intros z Hz.
  apply key_le_ne_lt.
  - by apply (proj1 (Forall_forall _ _) Hy).
  - intros E. apply Hny. rewrite E. by apply list_elem_of_fmap_2.
Qed.

Lemma sort_by_strict l :
  NoDup (key <$> l) -> StronglySorted key_lt (PySort.sort_by key l).
Proof.
  intros Hnd. apply sorted_strict; [apply sort_by_sorted |].
  by rewrite (sort_by_perm l).
Qed.

Lemma strict_sorted_nodup l :
  StronglySorted key_lt l -> NoDup (key <$> l).
Proof.
  induction 1 as [|y l Hs IH Hy]; simpl; [constructor |].
  apply NoDup_cons. split; [| done].
  intros (z & Ez & Hz)%list_elem_of_fmap.
  pose proof (proj1 (Forall_forall _ _) Hy z Hz) as Hlt.
  unfold key_lt, String.ltb in Hlt.
  by rewrite Ez, compare_refl in Hlt.
Qed.

End SortFacts.

(** ** Write pipeline *)

Section PipelineFacts.
Import Ex3.

Lemma remove_duplicates_snoc pre d :
  remove_duplicates (pre ++ [d]) = dedup_step (remove_duplicates pre) d.
Proof. unfold remove_duplicates. by rewrite fold_left_app. Qed.

Lemma dedup_step_fresh st d :
  hostname d ∉ seen st ->
  dedup_step st d =
    mkDedup ({[hostname d]} ∪ seen st) (unique_devices st ++ [d]) (duplicates st).
Proof. intros H. unfold dedup_step. by rewrite bool_decide_eq_true_2. Qed.

Lemma dedup_step_seen st d :
  hostname d ∈ seen st ->
  dedup_step st d = mkDedup (seen st) (unique_devices st) (S (duplicates st)).
Proof.
  intros H. unfold dedup_step. rewrite bool_decide_eq_false_2; [done |].
  by intros Hn.
Qed.

Lemma seen_hostnames devs :
  seen (remove_duplicates devs) = list_to_set (hostname <$> devs).
Proof.
  induction devs as [|d pre IH] using rev_ind; [done |].
  rewrite remove_duplicates_snoc, fmap_app, list_to_set_app_L.
  simpl. rewrite (right_id_L ∅ (∪)), (comm_L (∪)), <- IH.
  destruct (decide (hostname d ∈ seen (remove_duplicates pre))) as [Hin|Hin].
  - rewrite (dedup_step_seen _ _ Hin). simpl. symmetry.
    by apply subseteq_union_1_L, singleton_subseteq_l.
  - by rewrite (dedup_step_fresh _ _ Hin).
Qed.

Lemma unique_devices_invariant devs :
  let st := remove_duplicates devs in
  list_to_set (hostname <$> unique_devices st) = seen st
  /\ NoDup (hostname <$> unique_devices st)
  /\ length (unique_devices st) + duplicates st = length devs
  /\ sublist (unique_devices st) devs.
Proof.
  induction devs as [|d pre IH] using rev_ind.
  - simpl. repeat split; [constructor | constructor].
  - destruct IH as (Hset & Hnd & Hlen & Hsub).
    rewrite remove_duplicates_snoc. cbv zeta.
    destruct (decide (hostname d ∈ seen (remove_duplicates pre))) as [Hin|Hin].
    + rewrite (dedup_step_seen _ _ Hin). simpl.
      repeat split; [done | done | |].
      * rewrite length_app. simpl. lia.
      * by apply sublist_inserts_r.
    + rewrite (dedup_step_fresh _ _ Hin). simpl.
      rewrite fmap_app, list_to_set_app_L, Hset. simpl.
      repeat split.
      * by rewrite (right_id_L ∅ (∪)), (comm_L (∪)).
      * apply NoDup_app. repeat split; [done | | apply NoDup_singleton].
        intros h Hh ->%list_elem_of_singleton. apply Hin.
        rewrite <- Hset. by apply elem_of_list_to_set.
      * rewrite !length_app. simpl. lia.
      * by apply sublist_app.
Qed.

Lemma to_dict_hostname d : hd "" (writerow (to_dict d)) = hostname d.
Proof. reflexivity. Qed.

Lemma written_hostname_column rows :
  hostname_column (written (task_3_transform_pipeline rows))
  = hostname <$> sorted_unique (devices (read_rows rows)).
Proof.
  unfold hostname_column, task_3_transform_pipeline, sorted_unique. simpl.
  rewrite <- list_fmap_compose. by apply list_fmap_ext.
Qed.

End PipelineFacts.

(** * The claims *)

(** C2 (as stated, refuted).  The claim has every string containing a
    character outside [A-Za-z0-9-] rejected; the validator trims first, so
    [" a "], which contains blanks, is accepted. *)
Lemma is_valid_hostname_blank_padded :
  all_chars Ex2.alnum_hyphen " a " = false
  /\ Ex2.is_valid_hostname " a " = true.
Proof. split; reflexivity. Qed.

(** C2 (amended).  [is_valid_hostname s] is true iff [s] is non-empty
    after trimming and the trimmed string is one alphanumeric character, or
    has alphanumerics at both ends and only alphanumerics and hyphens
    between.  Hence: a non-empty string of alphanumerics and hyphens that
    neither starts nor ends with a hyphen is accepted; a string whose
    trimmed form has a character outside [A-Za-z0-9-], or starts or ends
    with a hyphen, is rejected; a single alphanumeric character is
    accepted. *)
Theorem is_valid_hostname_spec (s : string) :
  (Ex2.is_valid_hostname s = true
   <-> strip s <> "" /\ hostname_shape (strip s))
  /\ (s <> "" -> all_chars Ex2.alnum_hyphen s = true ->
      starts_with is_hyphen s = false -> ends_with is_hyphen s = false ->
      Ex2.is_valid_hostname s = true)
  /\ (all_chars Ex2.alnum_hyphen (strip s) = false
      \/ starts_with is_hyphen (strip s) = true
      \/ ends_with is_hyphen (strip s) = true ->
      Ex2.is_valid_hostname s = false)
  /\ (forall c, Ex2.alnum c = true ->
                Ex2.is_valid_hostname (String c "") = true).
Proof.
  split; [| split; [| split]].
  - rewrite is_valid_hostname_shape. split; [| by intros [_ ?]].
    intros H. split; [| done].
    destruct H as [(c & -> & _) | (a & m & b & -> & _)]; done.
  - intros Hne Hall Hs He. apply is_valid_hostname_shape.
    assert (strip s = s) as ->.
    { apply strip_fixed, trimmed_no_space.
      eapply all_chars_impl; [| exact Hall].
      intros c Hc. by rewrite (alnum_hyphen_not_space c Hc). }
    by apply chars_hostname_shape.
  - intros Hbad. destruct (Ex2.is_valid_hostname s) eqn:E; [| done].
    apply is_valid_hostname_shape, hostname_shape_chars in E
      as (Hall & Hs & He).
    destruct Hbad as [H | [H | H]]; congruence.
  - intros c Hc. apply is_valid_hostname_shape.
    assert (strip (String c "") = String c "") as ->.
    { apply strip_fixed, trimmed_no_space. simpl.
      rewrite alnum_hyphen_not_space; [done |].
      unfold Ex2.alnum_hyphen. by rewrite Hc. }
    left. by exists c.
Qed.

Lemma is_valid_hostname_spec_witness :
  Ex2.is_valid_hostname "switch-01" = true
  /\ Ex2.is_valid_hostname " sw_01 " = false
  /\ Ex2.is_valid_hostname "a" = true.
Proof.
  split; [| split].
  - apply (proj1 (proj2 (is_valid_hostname_spec "switch-01")));
      [discriminate | reflexivity | reflexivity | reflexivity].
  - apply (proj1 (proj2 (proj2 (is_valid_hostname_spec " sw_01 ")))).
    left. reflexivity.
  - apply (proj2 (proj2 (proj2 (is_valid_hostname_spec "")))).
    reflexivity.
Defined.

(** C3.  [is_valid_ip s] always returns; it returns true iff the trimmed
    [s] is exactly four dot-separated groups of one to three digits, each
    reading as an integer of [0, 255]; leading zeros are accepted as they
    are.  ["256.1.1.1"], ["10.0.1"] and the empty string are rejected. *)
Theorem is_valid_ip_spec (s : string) :
  (exists b, Ex2.is_valid_ip s = Some b)
  /\ (Ex2.is_valid_ip s = Some true <-> four_groups octet (strip s))
  /\ Ex2.is_valid_ip "010.001.000.255" = Some true
  /\ Ex2.is_valid_ip "256.1.1.1" = Some false
  /\ Ex2.is_valid_ip "10.0.1" = Some false
  /\ Ex2.is_valid_ip "" = Some false.
Proof.
  split; [by rewrite is_valid_ip_total; eauto |].
  split; [| by repeat split].
  rewrite is_valid_ip_total. unfold ip_ok. split.
  - intros [= H]. apply andb_true_iff in H as [Hm Hr].
    apply matches_lang, lang_ip_pattern in Hm
      as (a & b & c & d & E & Ha & Hb & Hc & Hd).
    rewrite E in Hr |- *. rewrite split_four_groups in Hr by done.
    simpl in Hr. rewrite andb_true_r in Hr.
    apply andb_true_iff in Hr as [Ra Hr].
    apply andb_true_iff in Hr as [Rb Hr].
    apply andb_true_iff in Hr as [Rc Rd].
    exists a, b, c, d. split; [done |].
    repeat split; by apply in_range_octet.
  - intros (a & b & c & d & E & Ha & Hb & Hc & Hd). f_equal.
    pose proof (octet_digit_group _ Ha). pose proof (octet_digit_group _ Hb).
    pose proof (octet_digit_group _ Hc). pose proof (octet_digit_group _ Hd).
    apply andb_true_iff. split.
    + apply matches_lang, lang_ip_pattern. by exists a, b, c, d.
    + rewrite E, split_four_groups by done. simpl.
      assert (Ra : in_range a = true) by by apply in_range_octet.
      assert (Rb : in_range b = true) by by apply in_range_octet.
      assert (Rc : in_range c = true) by by apply in_range_octet.
      assert (Rd : in_range d = true) by by apply in_range_octet.
      by rewrite Ra, Rb, Rc, Rd.
Qed.

Lemma is_valid_ip_spec_witness :
  Ex2.is_valid_ip " 10.0.1.1 " = Some true.
Proof.
  apply (proj1 (proj2 (is_valid_ip_spec " 10.0.1.1 "))).
  assert (Hoct : forall g v, (1 <= String.length g <= 3)%nat ->
                             all_chars isdigit g = true ->
                             int g = Some v -> (0 <= v <= 255)%Z -> octet g).
  { intros g v Hlen Hd Hv Hr. split; [by split | by exists v]. }
  exists "10", "0", "1", "1". split; [reflexivity |].
  split; [| split; [| split]].
  - apply (Hoct "10" 10%Z); [simpl; lia | reflexivity | reflexivity | lia].
  - apply (Hoct "0" 0%Z); [simpl; lia | reflexivity | reflexivity | lia].
  - apply (Hoct "1" 1%Z); [simpl; lia | reflexivity | reflexivity | lia].
  - apply (Hoct "1" 1%Z); [simpl; lia | reflexivity | reflexivity | lia].
Defined.

(** C4.  For every row number and row, [validate_row] returns a result in
    which [cleaned_data] is present iff [is_valid] is true, and [is_valid]
    is true iff the error list is empty. *)
Theorem validate_row_invariant (row_num : Z) (row : gmap string string) :
  exists r,
    Ex2.validate_row row_num row = Some r
    /\ Ex2.row_number r = row_num
    /\ (Ex2.cleaned_data r <> None <-> Ex2.is_valid r = true)
    /\ (Ex2.is_valid r = true <-> Ex2.errors r = []).
Proof.
  rewrite validate_row_unfold. eexists. split; [reflexivity |]. simpl.
  destruct (row_errors row); simpl; repeat split; congruence.
Qed.

(** C5.  A row whose hostname is present and valid, whose device type and
    location are non-empty after trimming, and whose IP is empty after
    trimming gets exactly the one error ["Missing IP address"] and no
    cleaned data. *)
Theorem validate_row_missing_ip (row_num : Z) (row : gmap string string) :
  strip (field row "hostname" "name") <> "" ->
  Ex2.is_valid_hostname (field row "hostname" "name") = true ->
  strip (field row "type" "device_type") <> "" ->
  strip (field row "loc" "location") <> "" ->
  strip (field row "ip" "ip_address") = "" ->
  Ex2.validate_row row_num row =
    Some {| Ex2.row_number := row_num;
            Ex2.is_valid := false;
            Ex2.errors := ["Missing IP address"];
            Ex2.cleaned_data := None |}.
Proof.
  intros Hh Hv Ht Hl Hip. rewrite validate_row_unfold.
  assert (row_errors row = ["Missing IP address"]) as ->; [| done].
  unfold row_errors.
  assert (hostname_errors (strip (field row "hostname" "name")) = []) as ->.
  { apply hostname_errors_nil. split; [done |].
    by rewrite is_valid_hostname_strip, strip_idem, <- is_valid_hostname_strip. }
  rewrite Hip. unfold missing_error.
  apply truthy_ne in Ht, Hl. by rewrite Ht, Hl.
Qed.

Lemma validate_row_missing_ip_witness :
  Ex2.validate_row 2 row_c5 =
    Some {| Ex2.row_number := 2;
            Ex2.is_valid := false;
            Ex2.errors := ["Missing IP address"];
            Ex2.cleaned_data := None |}.
Proof.
  apply (validate_row_missing_ip 2 row_c5);
    solve [reflexivity | vm_compute; discriminate].
Defined.

(** C9.  On every row [validate_row] accepts, the cleaned hostname is the
    trimmed, lower-cased raw hostname and has no underscore: replacing
    underscores changes nothing there, because the hostname validator
    rejects every hostname with an underscore. *)
Theorem cleaned_hostname_no_underscore
    (row_num : Z) (row : gmap string string) (r : Ex2.ValidationResult) :
  Ex2.validate_row row_num row = Some r ->
  Ex2.is_valid r = true ->
  let h := lower (strip (field row "hostname" "name")) in
  (exists cleaned,
     Ex2.cleaned_data r = Some cleaned /\ cleaned !! "hostname" = Some h)
  /\ all_chars (not_char "_") h = true
  /\ replace "_" "-" h = h
  /\ (forall s, all_chars (not_char "_") s = false ->
                Ex2.is_valid_hostname s = false).
Proof.
  assert (Hrej : forall s, Ex2.is_valid_hostname s = true ->
                           all_chars (not_char "_") (strip s) = true).
  { intros s Hs.
    apply is_valid_hostname_shape, hostname_shape_chars in Hs as (Hall & _).
    eapply all_chars_impl; [| exact Hall].
    intros c Hc. unfold not_char.
    by rewrite (alnum_hyphen_not_underscore c Hc). }
  rewrite validate_row_unfold. intros [= <-]. simpl.
  destruct (row_errors row) as [|e es] eqn:E; [| done]. intros _.
  apply app_nil_parts in E as (Hh & _).
  apply hostname_errors_nil in Hh as [_ Hv].
  apply Hrej in Hv. rewrite strip_idem in Hv.
  assert (Hus : all_chars (not_char "_")
                  (lower (strip (field row "hostname" "name"))) = true).
  { clear -Hv. induction (strip (field row "hostname" "name")) as [|c s IH];
      simpl in *; [done |].
    apply andb_true_iff in Hv as [Hc Hs]. rewrite (IH Hs), andb_true_r.
    unfold not_char in *. by rewrite lower_char_underscore. }
  assert (Hfix : replace "_" "-" (lower (strip (field row "hostname" "name")))
                 = lower (strip (field row "hostname" "name")))
    by by apply replace_fixed.
  repeat split; [| done | done |].
  - exists (cleaned_row row). split; [done |].
    unfold cleaned_row. rewrite list_to_map_assoc. simpl. by rewrite Hfix.
  - intros s Hs. destruct (Ex2.is_valid_hostname s) eqn:Ev; [| done].
    apply Hrej in Ev. apply all_chars_unstrip in Ev; [congruence |].
    intros c Hc. unfold not_char.
    destruct (Ascii.eqb_spec c "_"%char) as [-> |]; [done | done].
Qed.

Lemma cleaned_hostname_no_underscore_witness :
  (exists cleaned,
     Ex2.cleaned_data
       {| Ex2.row_number := 2; Ex2.is_valid := true; Ex2.errors := [];
          Ex2.cleaned_data := Some (cleaned_row row_c9) |} = Some cleaned
     /\ cleaned !! "hostname" = Some "sw-core-01")
  /\ all_chars (not_char "_") "sw-core-01" = true
  /\ replace "_" "-" "sw-core-01" = "sw-core-01"
  /\ (forall s, all_chars (not_char "_") s = false ->
                Ex2.is_valid_hostname s = false).
Proof.
  apply (cleaned_hostname_no_underscore 2 row_c9
           {| Ex2.row_number := 2; Ex2.is_valid := true; Ex2.errors := [];
              Ex2.cleaned_data := Some (cleaned_row row_c9) |});
    reflexivity.
Defined.

Section FallbackFacts.

Lemma is_valid_row_unfold row :
  Ex3.is_valid_row row =
    truthy (strip (field row "hostname" "name"))
    && truthy (strip (field row "ip" "ip_address")).
Proof. reflexivity. Qed.

Lemma transform_row_unfold row :
  Ex3.transform_row row =
    if Ex3.is_valid_row row then Some (device_of row) else None.
Proof. unfold Ex3.transform_row. by destruct (Ex3.is_valid_row row). Qed.

(** Rows that agree on the four resolved columns are treated alike. *)
Lemma same_fields row row' n :
  field row' "hostname" "name" = field row "hostname" "name" ->
  field row' "ip" "ip_address" = field row "ip" "ip_address" ->
  field row' "type" "device_type" = field row "type" "device_type" ->
  field row' "loc" "location" = field row "loc" "location" ->
  Ex2.validate_row n row' = Ex2.validate_row n row
  /\ Ex3.is_valid_row row' = Ex3.is_valid_row row
  /\ Ex3.transform_row row' = Ex3.transform_row row.
Proof.
  intros Hh Hi Ht Hl.
  rewrite !validate_row_unfold, !transform_row_unfold, !is_valid_row_unfold.
  unfold row_errors, cleaned_row, device_of.
  by rewrite Hh, Hi, Ht, Hl.
Qed.

Lemma assoc_elem l k v :
  NoDup l.*1 -> (k, v) ∈ l -> assoc l k = Some v.
Proof.
  induction l as [|[a w] l IH]; simpl; [by intros _ ?%elem_of_nil |].
  intros [Ha Hnd]%NoDup_cons [[= <- <-] | Hin]%elem_of_cons.
  - by rewrite String.eqb_refl.
  - destruct (String.eqb_spec a k) as [-> | _]; [| auto].
    exfalso. apply Ha. by apply (list_elem_of_fmap_2 fst _ (k, v)).
Qed.

Lemma assoc_not_elem l k : k ∉ l.*1 -> assoc l k = None.
Proof.
  induction l as [|[a w] l IH]; simpl; [done |].
  intros [Hne Hl]%not_elem_of_cons.
  destruct (String.eqb_spec a k) as [-> | _]; [done | auto].
Qed.

End FallbackFacts.

(** On a row that binds every column to a string: [is_valid_row] is true
    iff the hostname and the IP columns are both non-empty after trimming,
    and [transform_row] returns a Device iff [is_valid_row] is true. *)
Theorem transform_row_presence (row : gmap string string) :
  (Ex3.is_valid_row row = true
   <-> strip (field row "hostname" "name") <> ""
       /\ strip (field row "ip" "ip_address") <> "")
  /\ (is_Some (Ex3.transform_row row) <-> Ex3.is_valid_row row = true)
  /\ (Ex3.is_valid_row row = false -> Ex3.transform_row row = None)
  /\ (Ex3.is_valid_row row = true ->
      Ex3.transform_row row = Some (device_of row))
  /\ (Ex2.is_valid_hostname "bad host!" = false
      /\ Ex2.is_valid_ip "NOT_ASSIGNED" = Some false
      /\ Ex3.transform_row row_c6 =
           Some {| Ex3.hostname := "bad-host!";
                   Ex3.ip_address := "NOT_ASSIGNED";
                   Ex3.device_type := "router";
                   Ex3.location := "data-center";
                   Ex3.status := "active" |}).
Proof.
  rewrite transform_row_unfold.
  split; [| split; [| split; [| split]]].
  - by rewrite is_valid_row_unfold, andb_true_iff, !truthy_ne.
  - destruct (Ex3.is_valid_row row); split; done.
  - by intros ->.
  - by intros ->.
  - by repeat split.
Qed.

Lemma transform_row_presence_witness :
  Ex3.transform_row row_c10 = None.
Proof.
  apply (proj1 (proj2 (proj2 (transform_row_presence row_c10)))).
  reflexivity.
Defined.

Section ReaderFacts.

Lemma reader_field_strings row k alt :
  reader_field (reader_row row) k alt = Some (field row k alt).
Proof.
  unfold reader_field, reader_row, Ex3Reader.get, field, get.
  rewrite !lookup_fmap.
  by destruct (row !! k), (row !! alt).
Qed.

Lemma reader_is_valid_row_unfold row :
  Ex3Reader.is_valid_row row =
    match reader_field row "hostname" "name",
          reader_field row "ip" "ip_address" with
    | Some h, Some ip => Ex3Reader.Returns (truthy (strip h) && truthy (strip ip))
    | _, _ => Ex3Reader.AttributeError
    end.
Proof.
  unfold Ex3Reader.is_valid_row, reader_field.
  destruct (Ex3Reader.get row "hostname" _); [| done].
  by destruct (Ex3Reader.get row "ip" _).
Qed.

Lemma reader_transform_row_unfold row :
  Ex3Reader.transform_row row =
    match Ex3Reader.is_valid_row row with
    | Ex3Reader.Returns true =>
        match reader_field row "hostname" "name",
              reader_field row "ip" "ip_address",
              reader_field row "type" "device_type",
              reader_field row "loc" "location" with
        | Some h, Some ip, Some t, Some l =>
            Ex3Reader.Returns
              (Some {| Ex3.hostname := Ex3.normalize_hostname (strip h);
                       Ex3.ip_address := strip ip;
                       Ex3.device_type := Ex3.normalize_device_type (strip t);
                       Ex3.location := Ex3.normalize_location (strip l);
                       Ex3.status := "active" |})
        | _, _, _, _ => Ex3Reader.AttributeError
        end
    | Ex3Reader.Returns false => Ex3Reader.Returns None
    | Ex3Reader.AttributeError => Ex3Reader.AttributeError
    end.
Proof.
  unfold Ex3Reader.transform_row, reader_field.
  destruct (Ex3Reader.is_valid_row row) as [[|]|]; simpl; [| done | done].
  destruct (Ex3Reader.get row "hostname" _); [| done].
  destruct (Ex3Reader.get row "ip" _); [| done].
  destruct (Ex3Reader.get row "type" _); [| done].
  by destruct (Ex3Reader.get row "loc" _).
Qed.

(** On rows of strings the two embeddings of exercise 3 agree. *)
Lemma reader_row_strings row :
  Ex3Reader.is_valid_row (reader_row row)
  = Ex3Reader.Returns (Ex3.is_valid_row row)
  /\ Ex3Reader.transform_row (reader_row row)
     = Ex3Reader.Returns (Ex3.transform_row row).
Proof.
  assert (Hv : Ex3Reader.is_valid_row (reader_row row)
               = Ex3Reader.Returns (Ex3.is_valid_row row)).
  { by rewrite reader_is_valid_row_unfold, !reader_field_strings. }
  split; [done |].
  rewrite reader_transform_row_unfold, Hv, !reader_field_strings.
  rewrite transform_row_unfold. by destruct (Ex3.is_valid_row row).
Qed.

End ReaderFacts.




(** C7.  [normalize_device_type] is the same function in both exercises:
    it lower-cases and trims, returns the table image of the result when
    the table has it, and the lower-cased trimmed string otherwise. *)
Theorem normalize_device_type_table (s : string) :
  Ex3.normalize_device_type s = Ex2.normalize_device_type s
  /\ (forall v, (strip (lower s), v) ∈ device_type_table ->
                Ex2.normalize_device_type s = v)
  /\ (strip (lower s) ∉ device_type_table.*1 ->
      Ex2.normalize_device_type s = strip (lower s))
  /\ Ex2.normalize_device_type "sw" = "switch"
  /\ Ex2.normalize_device_type "RTR" = "router"
  /\ Ex2.normalize_device_type "unknown" = "unknown".
Proof.
  split; [reflexivity |]. split; [| split; [| by repeat split]].
  - intros v Hv. rewrite device_type_unfold.
    rewrite (assoc_elem device_type_table _ v); [done | | done].
    apply (bool_decide_unpack _). by vm_compute.
  - intros Hk. rewrite device_type_unfold.
    by rewrite (assoc_not_elem device_type_table).
Qed.

Lemma normalize_device_type_table_witness :
  Ex2.normalize_device_type " Fw " = "firewall"
  /\ Ex2.normalize_device_type "Load Balancer" = "load balancer".
Proof.
  split.
  - apply (proj1 (proj2 (normalize_device_type_table " Fw "))).
    apply (bool_decide_unpack _). by vm_compute.
  - apply (proj1 (proj2 (proj2 (normalize_device_type_table "Load Balancer")))).
    apply (bool_decide_unpack _). by vm_compute.
Defined.

(** C8.  Each normaliser is idempotent: applied to its own output it
    returns that output. *)
Theorem normalizers_idempotent (s : string) :
  Ex2.normalize_device_type (Ex2.normalize_device_type s)
  = Ex2.normalize_device_type s
  /\ Ex3.normalize_device_type (Ex3.normalize_device_type s)
     = Ex3.normalize_device_type s
  /\ Ex2.normalize_location (Ex2.normalize_location s)
     = Ex2.normalize_location s
  /\ Ex3.normalize_location (Ex3.normalize_location s)
     = Ex3.normalize_location s
  /\ Ex3.normalize_hostname (Ex3.normalize_hostname s)
     = Ex3.normalize_hostname s
  /\ Ex2.normalize_device_type "switch" = "switch".
Proof.
  repeat split.
  - apply device_type_idem.
  - rewrite !device_type_same. apply device_type_idem.
  - apply location_idem.
  - rewrite !location_same. apply location_idem.
  - apply normalize_hostname_idem.
Qed.

(** C10.  The alternate column name is used only when the first name is
    absent as a key: a row that binds ["ip"] to a blank string is reported
    with ["Missing IP address"] and refused by [is_valid_row], whatever
    ["ip_address"] holds; and when the first name of a column is present,
    the value under the alternate name has no influence, for each of
    hostname/name, ip/ip_address, type/device_type and loc/location. *)
Theorem fallback_on_key_presence
    (row_num : Z) (row : gmap string string) (v x : string) :
  (row !! "ip" = Some v -> strip v = "" ->
   (exists r, Ex2.validate_row row_num row = Some r
              /\ "Missing IP address" ∈ Ex2.errors r
              /\ Ex2.is_valid r = false
              /\ Ex2.cleaned_data r = None)
   /\ Ex3.is_valid_row row = false
   /\ Ex3.transform_row row = None)
  /\ (is_Some (row !! "hostname") ->
      Ex2.validate_row row_num (<["name" := x]> row)
      = Ex2.validate_row row_num row
      /\ Ex3.transform_row (<["name" := x]> row) = Ex3.transform_row row)
  /\ (is_Some (row !! "ip") ->
      Ex2.validate_row row_num (<["ip_address" := x]> row)
      = Ex2.validate_row row_num row
      /\ Ex3.transform_row (<["ip_address" := x]> row) = Ex3.transform_row row)
  /\ (is_Some (row !! "type") ->
      Ex2.validate_row row_num (<["device_type" := x]> row)
      = Ex2.validate_row row_num row
      /\ Ex3.transform_row (<["device_type" := x]> row) = Ex3.transform_row row)
  /\ (is_Some (row !! "loc") ->
      Ex2.validate_row row_num (<["location" := x]> row)
      = Ex2.validate_row row_num row
      /\ Ex3.transform_row (<["location" := x]> row) = Ex3.transform_row row).
Proof.
  split; [| split; [| split; [| split]]].
  - intros Hv Hblank.
    assert (Hip : strip (field row "ip" "ip_address") = "")
      by by rewrite (field_present row "ip" "ip_address" v Hv).
    split; [| split].
    + rewrite validate_row_unfold. eexists. split; [reflexivity |]. simpl.
      unfold row_errors. rewrite Hip.
      change (ip_errors "") with ["Missing IP address"].
      destruct (hostname_errors _); simpl; repeat split.
      * apply list_elem_of_here.
      * apply list_elem_of_further, elem_of_app. right. apply list_elem_of_here.
    + by rewrite is_valid_row_unfold, Hip, andb_false_r.
    + by rewrite transform_row_unfold, is_valid_row_unfold, Hip, andb_false_r.
  - intros Hp.
    destruct (same_fields row (<["name" := x]> row) row_num) as (? & _ & ?);
      [by apply field_insert_other | by apply field_insert_unrelated ..| done].
  - intros Hp.
    destruct (same_fields row (<["ip_address" := x]> row) row_num) as (? & _ & ?);
      [ by apply field_insert_unrelated | by apply field_insert_other
      | by apply field_insert_unrelated .. | done].
  - intros Hp.
    destruct (same_fields row (<["device_type" := x]> row) row_num) as (? & _ & ?);
      [ by apply field_insert_unrelated | by apply field_insert_unrelated
      | by apply field_insert_other | by apply field_insert_unrelated | done].
  - intros Hp.
    destruct (same_fields row (<["location" := x]> row) row_num) as (? & _ & ?);
      [ by apply field_insert_unrelated .. | by apply field_insert_other | done].
Qed.

Lemma fallback_on_key_presence_witness :
  (exists r, Ex2.validate_row 2 row_c10 = Some r
             /\ "Missing IP address" ∈ Ex2.errors r
             /\ Ex2.is_valid r = false
             /\ Ex2.cleaned_data r = None)
  /\ Ex3.is_valid_row row_c10 = false
  /\ Ex3.transform_row row_c10 = None.
Proof.
  apply (proj1 (fallback_on_key_presence 2 row_c10 "  " ""));
    reflexivity.
Defined.

(** C1.  Duplicate removal scans the devices in their order: a device
    whose hostname has not occurred before is kept, after those already
    kept, and any later device with that hostname adds one to the duplicate
    count.  The kept devices are then sorted by hostname, so the written
    records carry pairwise distinct hostnames in strictly ascending order.
    Two rows with the hostnames ["SW-01"] and ["sw_01"] give one record,
    with hostname ["sw-01"], and a duplicate count of 1. *)
Theorem task_3_dedup_sort
    (pre : list Ex3.Device) (d : Ex3.Device)
    (rows : list (gmap string string)) (r1 r2 : gmap string string) :
  let st := Ex3.remove_duplicates pre in
  let st' := Ex3.remove_duplicates (pre ++ [d]) in
  let out := Ex3.task_3_transform_pipeline rows in
  let devs := Ex3.devices (Ex3.read_rows rows) in
  (Ex3.unique_devices (Ex3.remove_duplicates []) = []
   /\ Ex3.duplicates (Ex3.remove_duplicates []) = 0)
  /\ (Ex3.hostname d ∉ Ex3.hostname <$> pre ->
      Ex3.unique_devices st' = Ex3.unique_devices st ++ [d]
      /\ Ex3.duplicates st' = Ex3.duplicates st)
  /\ (Ex3.hostname d ∈ Ex3.hostname <$> pre ->
      Ex3.unique_devices st' = Ex3.unique_devices st
      /\ Ex3.duplicates st' = S (Ex3.duplicates st))
  /\ (Permutation (Ex3.sorted_unique devs)
        (Ex3.unique_devices (Ex3.remove_duplicates devs))
      /\ hostname_column (Ex3.written out)
         = Ex3.hostname <$> Ex3.sorted_unique devs
      /\ StronglySorted (fun a b => String.ltb a b = true)
           (hostname_column (Ex3.written out))
      /\ NoDup (hostname_column (Ex3.written out))
      /\ Ex3.duplicates_removed out
         = Ex3.duplicates (Ex3.remove_duplicates devs)
      /\ Ex3.final_count out + Ex3.duplicates_removed out
         = Ex3.valid_devices out)
  /\ (field r1 "hostname" "name" = "SW-01" ->
      field r2 "hostname" "name" = "sw_01" ->
      strip (field r1 "ip" "ip_address") <> "" ->
      strip (field r2 "ip" "ip_address") <> "" ->
      Ex3.written (Ex3.task_3_transform_pipeline [r1; r2])
      = [Ex3.fieldnames; Ex3.writerow (Ex3.to_dict (device_of r1))]
      /\ hostname_column (Ex3.written (Ex3.task_3_transform_pipeline [r1; r2]))
         = ["sw-01"]
      /\ Ex3.duplicates_removed (Ex3.task_3_transform_pipeline [r1; r2]) = 1).
Proof.
  cbv zeta.
  split; [done |]. split; [| split; [| split]].
  - intros Hd. rewrite remove_duplicates_snoc, dedup_step_fresh; [done |].
    by rewrite seen_hostnames, elem_of_list_to_set.
  - intros Hd. rewrite remove_duplicates_snoc, dedup_step_seen; [done |].
    by rewrite seen_hostnames, elem_of_list_to_set.
  - set (devs := Ex3.devices (Ex3.read_rows rows)).
    destruct (unique_devices_invariant devs) as (_ & Hnd & Hlen & _).
    assert (Hsorted : StronglySorted (key_lt Ex3.hostname)
                        (Ex3.sorted_unique devs))
      by by apply sort_by_strict.
    rewrite written_hostname_column. fold devs.
    split; [apply sort_by_perm |]. split; [done |].
    split; [| split; [| split]].
    + eapply StronglySorted_fmap; [| exact Hsorted]. by intros a b Hab.
    + by apply strict_sorted_nodup.
    + done.
    + unfold Ex3.task_3_transform_pipeline. simpl. fold devs.
      by rewrite (Permutation_length (sort_by_perm Ex3.hostname _)).
  - intros H1 H2 Hip1 Hip2.
    assert (T1 : Ex3.transform_row r1 = Some (device_of r1)).
    { rewrite transform_row_unfold, is_valid_row_unfold, H1.
      apply truthy_ne in Hip1. by rewrite Hip1. }
    assert (T2 : Ex3.transform_row r2 = Some (device_of r2)).
    { rewrite transform_row_unfold, is_valid_row_unfold, H2.
      apply truthy_ne in Hip2. by rewrite Hip2. }
    unfold Ex3.task_3_transform_pipeline, Ex3.read_rows, Ex3.read_row.
    simpl fold_left. rewrite T1, T2. simpl Ex3.devices.
    unfold device_of. rewrite H1, H2. done.
Qed.

Lemma task_3_dedup_sort_witness :
  Ex3.written (Ex3.task_3_transform_pipeline [row_sw_upper; row_sw_under])
  = [ ["hostname"; "ip_address"; "device_type"; "location"; "status"];
      ["sw-01"; "10.0.1.1"; "switch"; "building-a"; "active"] ]
  /\ hostname_column
       (Ex3.written (Ex3.task_3_transform_pipeline [row_sw_upper; row_sw_under]))
     = ["sw-01"]
  /\ Ex3.duplicates_removed
       (Ex3.task_3_transform_pipeline [row_sw_upper; row_sw_under]) = 1.
Proof.
  apply (proj2 (proj2 (proj2 (proj2
           (task_3_dedup_sort [] (device_of row_sw_upper) []
              row_sw_upper row_sw_under)))));
    solve [reflexivity | vm_compute; discriminate].
Defined.


(** * Further properties of the exercises *)

(** ** Normalisers and validators *)

Section MoreCharFacts.

Ltac by_cases c :=
  destruct c as [[] [] [] [] [] [] [] []]; vm_compute; congruence.

Lemma lower_char_alnum_hyphen c :
  Ex2.alnum_hyphen (lower_char c) = Ex2.alnum_hyphen c.
Proof. by_cases c. Qed.

Lemma lower_char_hyphen c : is_hyphen (lower_char c) = is_hyphen c.
Proof. by_cases c. Qed.

End MoreCharFacts.

Section NormalFormFacts.

Lemma lower_empty s : lower s = "" <-> s = "".
Proof. by destruct s. Qed.

Lemma replace_empty old new s : replace old new s = "" <-> s = "".
Proof. by destruct s. Qed.

Lemma all_chars_lower p s :
  (forall c, p (lower_char c) = p c) ->
  all_chars p (lower s) = all_chars p s.
Proof.
  intros Hp. induction s as [|c s IH]; simpl; [done |].
  by rewrite Hp, IH.
Qed.

Lemma starts_with_lower p s :
  (forall c, p (lower_char c) = p c) ->
  starts_with p (lower s) = starts_with p s.
Proof. intros Hp. destruct s; simpl; [done | apply Hp]. Qed.

Lemma ends_with_lower p s :
  (forall c, p (lower_char c) = p c) ->
  ends_with p (lower s) = ends_with p s.
Proof.
  intros Hp. induction s as [|c s IH]; [done |].
  destruct s as [|d s]; [apply Hp |].
  change (ends_with p (lower (String d s)) = ends_with p (String d s)).
  exact IH.
Qed.

Lemma hostname_shape_iff t :
  hostname_shape t <->
  t <> "" /\ all_chars Ex2.alnum_hyphen t = true
  /\ starts_with is_hyphen t = false /\ ends_with is_hyphen t = false.
Proof.
  split.
  - intros H. split; [| by apply hostname_shape_chars].
    destruct H as [(c & -> & _) | (a & m & b & -> & _)]; done.
  - intros (? & ? & ? & ?). by apply chars_hostname_shape.
Qed.

Lemma hostname_shape_lower t : hostname_shape (lower t) <-> hostname_shape t.
Proof.
  rewrite !hostname_shape_iff, lower_empty.
  rewrite (all_chars_lower _ _ lower_char_alnum_hyphen).
  rewrite (starts_with_lower _ _ lower_char_hyphen).
  by rewrite (ends_with_lower _ _ lower_char_hyphen).
Qed.

Lemma is_valid_hostname_lower s :
  Ex2.is_valid_hostname (lower s) = Ex2.is_valid_hostname s.
Proof.
  apply eq_true_iff_eq.
  by rewrite !is_valid_hostname_shape, strip_lower, hostname_shape_lower.
Qed.

Lemma is_valid_hostname_trim s :
  Ex2.is_valid_hostname (strip s) = Ex2.is_valid_hostname s.
Proof. by rewrite !is_valid_hostname_strip, strip_idem. Qed.

Lemma ip_ok_trim s : ip_ok (strip s) = ip_ok s.
Proof. unfold ip_ok. by rewrite strip_idem. Qed.

(** What an accepted hostname looks like to the two hostname normalisers. *)
Lemma valid_hostname_normal s :
  Ex2.is_valid_hostname s = true ->
  all_chars (not_char "_") (lower (strip s)) = true
  /\ all_chars (not_char " ") (lower (strip s)) = true
  /\ Ex3.normalize_hostname s = lower (strip s).
Proof.
  intros Hv.
  apply is_valid_hostname_shape, hostname_shape_lower,
    hostname_shape_chars in Hv as (Hall & _).
  assert (Hus : all_chars (not_char "_") (lower (strip s)) = true).
  { eapply all_chars_impl; [| exact Hall]. intros c Hc. unfold not_char.
    by rewrite (alnum_hyphen_not_underscore c Hc). }
  assert (Hsp : all_chars (not_char " ") (lower (strip s)) = true).
  { eapply all_chars_impl; [| exact Hall]. intros c Hc. unfold not_char.
    destruct (Ascii.eqb_spec c " "%char) as [-> |]; [done | done]. }
  repeat split; [done | done |].
  unfold Ex3.normalize_hostname.
  rewrite strip_lower, (replace_fixed "_" "-" _ Hus).
  by apply replace_fixed.
Qed.

Lemma device_type_normal s :
  let r := Ex2.normalize_device_type s in
  strip r = r /\ lower r = r /\ (strip s <> "" -> r <> "").
Proof.
  cbv zeta. rewrite device_type_unfold.
  assert (Hlow : lower (strip (lower s)) = strip (lower s))
    by by rewrite strip_lower, lower_idem.
  assert (Hne : strip s <> "" -> strip (lower s) <> "")
    by by rewrite strip_lower, lower_empty.
  pose proof (strip_idem (lower s)) as Htrim.
  remember (strip (lower s)) as k eqn:Hk. clear Hk. cbn [assoc].
  repeat match goal with
  | |- context [String.eqb ?a k] =>
      destruct (String.eqb a k); [by repeat split |]
  end.
  by repeat split.
Qed.

Lemma location_normal s :
  let r := Ex2.normalize_location s in
  strip r = r /\ lower r = r /\ all_chars (not_char " ") r = true
  /\ (strip s <> "" -> r <> "").
Proof.
  cbv zeta. rewrite location_unfold.
  assert (Hlow : all_chars lower_fixed (strip (lower s)) = true)
    by apply all_chars_strip, lower_all_fixed.
  assert (Hne : strip s <> "" -> strip (lower s) <> "")
    by by rewrite strip_lower, lower_empty.
  pose proof (strip_trimmed (lower s)) as Htrim.
  remember (strip (lower s)) as k eqn:Hk. clear Hk. cbn [assoc].
  repeat match goal with
  | |- context [String.eqb ?a k] =>
      destruct (String.eqb a k); [by repeat split |]
  end.
  split; [| split; [| split]].
  - apply strip_fixed. by apply trimmed_replace.
  - apply lower_fixed_id. by apply all_chars_replace.
  - by apply replace_no_old.
  - by rewrite replace_empty.
Qed.

End NormalFormFacts.

(** X1.  [normalize_location] is the same function in both exercises: it
    lower-cases and trims, returns the table image of the result when the
    table has it, and otherwise that string with every space turned into a
    hyphen. *)
Theorem normalize_location_table (s : string) :
  Ex3.normalize_location s = Ex2.normalize_location s
  /\ (forall v, (strip (lower s), v) ∈ location_table ->
                Ex2.normalize_location s = v)
  /\ (strip (lower s) ∉ location_table.*1 ->
      Ex2.normalize_location s = replace " " "-" (strip (lower s))).
Proof.
  split; [reflexivity |]. split.
  - intros v Hv. rewrite location_unfold.
    rewrite (assoc_elem location_table _ v); [done | | done].
    apply (bool_decide_unpack _). by vm_compute.
  - intros Hk. rewrite location_unfold.
    by rewrite (assoc_not_elem location_table).
Qed.

Lemma normalize_location_table_witness :
  Ex2.normalize_location " Bldg A " = "building-a"
  /\ Ex2.normalize_location "Server Room 2" = "server-room-2".
Proof.
  split.
  - apply (proj1 (proj2 (normalize_location_table " Bldg A "))).
    apply (bool_decide_unpack _). by vm_compute.
  - apply (proj2 (proj2 (normalize_location_table "Server Room 2"))).
    apply (bool_decide_unpack _). by vm_compute.
Defined.

(** X2.  What every normaliser returns is already trimmed and lower-case;
    a location has no space left, a pipeline hostname neither space nor
    underscore; and an input that is not blank never normalises to the
    empty string. *)
Theorem normalizers_normal_form (s : string) :
  (strip (Ex2.normalize_device_type s) = Ex2.normalize_device_type s
   /\ lower (Ex2.normalize_device_type s) = Ex2.normalize_device_type s)
  /\ (strip (Ex2.normalize_location s) = Ex2.normalize_location s
      /\ lower (Ex2.normalize_location s) = Ex2.normalize_location s
      /\ all_chars (not_char " ") (Ex2.normalize_location s) = true)
  /\ (strip (Ex3.normalize_hostname s) = Ex3.normalize_hostname s
      /\ lower (Ex3.normalize_hostname s) = Ex3.normalize_hostname s
      /\ all_chars (not_char " ") (Ex3.normalize_hostname s) = true
      /\ all_chars (not_char "_") (Ex3.normalize_hostname s) = true)
  /\ (strip s <> "" ->
      Ex2.normalize_device_type s <> ""
      /\ Ex2.normalize_location s <> ""
      /\ Ex3.normalize_hostname s <> "").
Proof.
  destruct (device_type_normal s) as (Dt & Dl & Dn).
  destruct (location_normal s) as (Lt & Ll & Ls & Ln).
  destruct (normalize_hostname_chars s) as (Hl & Ht & Hu & Hs).
  repeat split; try done.
  - by apply strip_fixed.
  - by apply lower_fixed_id.
  - by apply Dn.
  - by apply Ln.
  - unfold Ex3.normalize_hostname.
    by rewrite !replace_empty, strip_lower, lower_empty.
Qed.

Lemma normalizers_normal_form_witness :
  Ex2.normalize_device_type " Core SW_1 " <> ""
  /\ Ex2.normalize_location " Core SW_1 " <> ""
  /\ Ex3.normalize_hostname " Core SW_1 " <> "".
Proof.
  apply (proj2 (proj2 (proj2 (normalizers_normal_form " Core SW_1 "))));
    vm_compute; discriminate.
Defined.

(** X3.  Whether a value is valid does not depend on the blanks around
    it; lower-casing never makes an accepted hostname rejected; and an
    accepted hostname stays accepted under the pipeline's hostname
    normaliser, which only trims and lower-cases it. *)
Theorem validators_stable (s : string) :
  Ex2.is_valid_hostname (strip s) = Ex2.is_valid_hostname s
  /\ Ex2.is_valid_ip (strip s) = Ex2.is_valid_ip s
  /\ (Ex2.is_valid_hostname s = true ->
      Ex2.is_valid_hostname (lower s) = true
      /\ Ex3.normalize_hostname s = lower (strip s)
      /\ Ex2.is_valid_hostname (Ex3.normalize_hostname s) = true).
Proof.
  split; [apply is_valid_hostname_trim |].
  split; [by rewrite !is_valid_ip_total, ip_ok_trim |].
  intros Hv. destruct (valid_hostname_normal s Hv) as (_ & _ & ->).
  split; [by rewrite is_valid_hostname_lower |].
  split; [done |].
  by rewrite is_valid_hostname_lower, is_valid_hostname_trim.
Qed.

Lemma validators_stable_witness :
  Ex2.is_valid_hostname (lower " Core-SW-01 ") = true
  /\ Ex3.normalize_hostname " Core-SW-01 " = lower (strip " Core-SW-01 ")
  /\ Ex2.is_valid_hostname (Ex3.normalize_hostname " Core-SW-01 ") = true.
Proof.
  apply (proj2 (proj2 (validators_stable " Core-SW-01 "))).
  reflexivity.
Defined.

Section ErrorFacts.

Lemma invalid_hostname_msg h :
  "Invalid hostname format: '" +:+ h +:+ "'"
  = String "I" ("nvalid hostname format: '" +:+ h +:+ "'").
Proof. reflexivity. Qed.

Lemma invalid_ip_msg ip :
  "Invalid IP address: '" +:+ ip +:+ "'"
  = String "I" (String "n" (String "v" (String "a" (String "l" (String "i"
      (String "d" (String " " (String "I" ("P address: '" +:+ ip +:+ "'"))))))))).
Proof. reflexivity. Qed.

Lemma invalid_hostname_msg' h :
  "Invalid hostname format: '" +:+ h +:+ "'"
  = String "I" (String "n" (String "v" (String "a" (String "l" (String "i"
      (String "d" (String " " (String "h" ("ostname format: '" +:+ h +:+ "'"))))))))).
Proof. reflexivity. Qed.

Lemma quote_inj pre a b : pre +:+ a +:+ "'" = pre +:+ b +:+ "'" -> a = b.
Proof.
  intros H. apply (inj (String.app pre)) in H.
  revert b H. induction a as [|c a IH]; intros [|d b] H; try done.
  - rewrite app_cons, app_empty_l in H. injection H as <- H.
    by destruct b.
  - rewrite app_cons, app_empty_l in H. injection H as <- H.
    by destruct a.
  - rewrite !app_cons in H. injection H as <- H. f_equal. by apply IH.
Qed.

End ErrorFacts.

(** X4.  Each of the four "Missing ..." messages is reported exactly when
    its column is blank after trimming; a row gets at most four errors, and
    a row blank in all four columns (the empty row among them) gets the
    four messages in the order hostname, IP, device type, location. *)
Theorem missing_field_errors (row_num : Z) (row : gmap string string) :
  exists r,
    Ex2.validate_row row_num row = Some r
    /\ ("Missing hostname" ∈ Ex2.errors r
        <-> strip (field row "hostname" "name") = "")
    /\ ("Missing IP address" ∈ Ex2.errors r
        <-> strip (field row "ip" "ip_address") = "")
    /\ ("Missing device type" ∈ Ex2.errors r
        <-> strip (field row "type" "device_type") = "")
    /\ ("Missing location" ∈ Ex2.errors r
        <-> strip (field row "loc" "location") = "")
    /\ length (Ex2.errors r) <= 4
    /\ (strip (field row "hostname" "name") = "" ->
        strip (field row "ip" "ip_address") = "" ->
        strip (field row "type" "device_type") = "" ->
        strip (field row "loc" "location") = "" ->
        Ex2.errors r =
          [ "Missing hostname"; "Missing IP address";
            "Missing device type"; "Missing location" ]).
Proof.
  rewrite validate_row_unfold. eexists. split; [reflexivity |]. simpl.
  unfold row_errors, hostname_errors, ip_errors, missing_error.
  rewrite invalid_hostname_msg, invalid_ip_msg, <- !truthy_empty.
  destruct (truthy (strip (field row "hostname" "name")));
    destruct (Ex2.is_valid_hostname (strip (field row "hostname" "name")));
    destruct (truthy (strip (field row "ip" "ip_address")));
    destruct (ip_ok (strip (field row "ip" "ip_address")));
    destruct (truthy (strip (field row "type" "device_type")));
    destruct (truthy (strip (field row "loc" "location")));
    simpl; repeat split;
    rewrite ?elem_of_cons, ?elem_of_nil; try lia;
    intuition (try discriminate; try congruence).
Qed.

Lemma missing_field_errors_witness :
  exists r,
    Ex2.validate_row 2 ∅ = Some r
    /\ Ex2.errors r =
         [ "Missing hostname"; "Missing IP address";
           "Missing device type"; "Missing location" ].
Proof.
  destruct (missing_field_errors 2 ∅) as (r & Hr & _ & _ & _ & _ & _ & Hall).
  exists r. split; [exact Hr |]. apply Hall; reflexivity.
Defined.

(** X5.  A column that is present but malformed is reported with its
    trimmed value between quotes: the hostname message appears exactly for
    a non-blank hostname the validator rejects, the IP message exactly for
    a non-blank IP the validator rejects; and no other message than these
    two and the four "Missing ..." ones is ever produced. *)
Theorem invalid_format_errors (row_num : Z) (row : gmap string string) :
  let h := strip (field row "hostname" "name") in
  let ip := strip (field row "ip" "ip_address") in
  exists r,
    Ex2.validate_row row_num row = Some r
    /\ ("Invalid hostname format: '" +:+ h +:+ "'" ∈ Ex2.errors r
        <-> h <> "" /\ Ex2.is_valid_hostname h = false)
    /\ ("Invalid IP address: '" +:+ ip +:+ "'" ∈ Ex2.errors r
        <-> ip <> "" /\ Ex2.is_valid_ip ip = Some false)
    /\ (forall e, e ∈ Ex2.errors r ->
          e ∈ [ "Missing hostname";
                "Invalid hostname format: '" +:+ h +:+ "'";
                "Missing IP address";
                "Invalid IP address: '" +:+ ip +:+ "'";
                "Missing device type"; "Missing location" ]).
Proof.
  cbv zeta. rewrite validate_row_unfold. eexists. split; [reflexivity |].
  simpl. unfold row_errors, hostname_errors, ip_errors, missing_error.
  rewrite is_valid_ip_total.
  rewrite invalid_hostname_msg', invalid_ip_msg, <- !truthy_ne.
  destruct (truthy (strip (field row "hostname" "name")));
    destruct (Ex2.is_valid_hostname (strip (field row "hostname" "name")));
    destruct (truthy (strip (field row "ip" "ip_address")));
    destruct (ip_ok (strip (field row "ip" "ip_address")));
    destruct (truthy (strip (field row "type" "device_type")));
    destruct (truthy (strip (field row "loc" "location")));
    simpl; (split; [| split; [| intros e]]);
    rewrite ?elem_of_cons, ?elem_of_nil;
    intuition (try discriminate; try congruence).
Qed.

Lemma invalid_format_errors_witness :
  exists r,
    Ex2.validate_row 2 row_bad_formats = Some r
    /\ "Invalid hostname format: 'sw_01'" ∈ Ex2.errors r
    /\ "Invalid IP address: '256.1.1.1'" ∈ Ex2.errors r.
Proof.
  destruct (invalid_format_errors 2 row_bad_formats) as (r & Hr & Hh & Hi & _).
  exists r. split; [exact Hr |]. split.
  - apply Hh. split; [discriminate | reflexivity].
  - apply Hi. split; [discriminate | reflexivity].
Defined.

(** ** Accepted rows *)

Section AcceptedFacts.

Lemma ip_errors_nil ip : ip_errors ip = [] <-> ip <> "" /\ ip_ok ip = true.
Proof.
  unfold ip_errors. rewrite <- truthy_ne.
  destruct (truthy ip), (ip_ok ip); simpl; intuition congruence.
Qed.

Lemma missing_error_nil v msg : missing_error v msg = [] <-> v <> "".
Proof.
  unfold missing_error. rewrite <- truthy_ne.
  destruct (truthy v); simpl; intuition congruence.
Qed.

(** What an empty error list says about the four columns. *)
Lemma row_errors_nil row :
  row_errors row = [] <->
  (strip (field row "hostname" "name") <> ""
   /\ Ex2.is_valid_hostname (strip (field row "hostname" "name")) = true)
  /\ (strip (field row "ip" "ip_address") <> ""
      /\ ip_ok (strip (field row "ip" "ip_address")) = true)
  /\ strip (field row "type" "device_type") <> ""
  /\ strip (field row "loc" "location") <> "".
Proof.
  unfold row_errors.
  by rewrite app_nil_parts, hostname_errors_nil, ip_errors_nil,
    !missing_error_nil.
Qed.

Lemma cleaned_row_fields row :
  field (cleaned_row row) "hostname" "name"
  = replace "_" "-" (lower (strip (field row "hostname" "name")))
  /\ field (cleaned_row row) "ip" "ip_address"
     = strip (field row "ip" "ip_address")
  /\ field (cleaned_row row) "type" "device_type"
     = Ex2.normalize_device_type (strip (field row "type" "device_type"))
  /\ field (cleaned_row row) "loc" "location"
     = Ex2.normalize_location (strip (field row "loc" "location")).
Proof.
  unfold field at 1 3 5 7, get, cleaned_row.
  by rewrite !list_to_map_assoc.
Qed.

Lemma cleaned_row_nonempty row : Ex2.dict_truthy (cleaned_row row) = true.
Proof.
  unfold Ex2.dict_truthy. apply negb_true_iff, bool_decide_eq_false_2.
  intros E. assert (H : cleaned_row row !! "hostname" = None)
    by by rewrite E.
  unfold cleaned_row in H. by rewrite list_to_map_assoc in H.
Qed.

Lemma device_type_trim s :
  Ex2.normalize_device_type (strip s) = Ex2.normalize_device_type s.
Proof. by rewrite !device_type_unfold, <- strip_lower, strip_idem. Qed.

Lemma location_trim s :
  Ex2.normalize_location (strip s) = Ex2.normalize_location s.
Proof. by rewrite !location_unfold, <- strip_lower, strip_idem. Qed.

Lemma hostname_trim s :
  Ex3.normalize_hostname (strip s) = Ex3.normalize_hostname s.
Proof.
  unfold Ex3.normalize_hostname. by rewrite <- strip_lower, strip_idem.
Qed.

(** The cleaned row of an accepted row has no errors and cleans to itself. *)
Lemma cleaned_row_fixed row :
  row_errors row = [] ->
  row_errors (cleaned_row row) = []
  /\ cleaned_row (cleaned_row row) = cleaned_row row.
Proof.
  intros ((Hh & Hv) & (Hi & Hok) & Ht & Hl)%row_errors_nil.
  destruct (cleaned_row_fields row) as (Fh & Fi & Ft & Fl).
  rewrite is_valid_hostname_trim in Hv.
  destruct (valid_hostname_normal _ Hv) as (Hus & _ & _).
  assert (Eh : replace "_" "-" (lower (strip (field row "hostname" "name")))
               = lower (strip (field row "hostname" "name")))
    by by apply replace_fixed.
  assert (Sh : strip (lower (strip (field row "hostname" "name")))
               = lower (strip (field row "hostname" "name")))
    by by rewrite strip_lower, strip_idem.
  destruct (device_type_normal (strip (field row "type" "device_type")))
    as (Dt & _ & Dn).
  destruct (location_normal (strip (field row "loc" "location")))
    as (Lt & _ & _ & Ln).
  rewrite strip_idem in Dn, Ln.
  split.
  - apply row_errors_nil. rewrite Fh, Fi, Ft, Fl, Eh, Sh, strip_idem, Dt, Lt.
    repeat split; try done.
    + by rewrite lower_empty.
    + by rewrite is_valid_hostname_lower, is_valid_hostname_trim.
    + by apply Dn.
    + by apply Ln.
  - unfold cleaned_row at 1. rewrite Fh, Fi, Ft, Fl.
    rewrite Eh, Sh, lower_idem, Eh, strip_idem.
    rewrite device_type_trim, device_type_idem.
    rewrite location_trim, location_idem.
    unfold cleaned_row. by rewrite Eh.
Qed.

Lemma cleaned_data_fixed row_num n row cleaned r :
  Ex2.validate_row row_num row = Some r ->
  Ex2.cleaned_data r = Some cleaned ->
  Ex2.validate_row n cleaned =
    Some {| Ex2.row_number := n; Ex2.is_valid := true; Ex2.errors := [];
            Ex2.cleaned_data := Some cleaned |}.
Proof.
  rewrite validate_row_unfold. intros [= <-]. simpl.
  destruct (row_errors row) eqn:E; [| done]. intros [= <-].
  destruct (cleaned_row_fixed row E) as (E' & Efix).
  by rewrite validate_row_unfold, E', Efix.
Qed.

End AcceptedFacts.

(** X6.  Cleaning is stable: the cleaned data of an accepted row, taken as
    a row of its own (columns hostname, ip_address, device_type, location),
    is accepted again, without errors, and is its own cleaned data. *)
Theorem cleaned_data_revalidates
    (row_num n : Z) (row cleaned : gmap string string)
    (r : Ex2.ValidationResult) :
  Ex2.validate_row row_num row = Some r ->
  Ex2.cleaned_data r = Some cleaned ->
  Ex2.validate_row n cleaned =
    Some {| Ex2.row_number := n; Ex2.is_valid := true; Ex2.errors := [];
            Ex2.cleaned_data := Some cleaned |}.
Proof. apply cleaned_data_fixed. Qed.

Lemma cleaned_data_revalidates_witness :
  Ex2.validate_row 7 (cleaned_row row_c9) =
    Some {| Ex2.row_number := 7; Ex2.is_valid := true; Ex2.errors := [];
            Ex2.cleaned_data := Some (cleaned_row row_c9) |}.
Proof.
  apply (cleaned_data_revalidates 2 7 row_c9 (cleaned_row row_c9)
           {| Ex2.row_number := 2; Ex2.is_valid := true; Ex2.errors := [];
              Ex2.cleaned_data := Some (cleaned_row row_c9) |});
    reflexivity.
Defined.

(** X7.  The two exercises agree on accepted rows: a row [validate_row]
    accepts is also turned into a Device by [transform_row], and that
    Device carries the four cleaned values, with status ["active"]. *)
Theorem accepted_row_transforms
    (row_num : Z) (row cleaned : gmap string string)
    (r : Ex2.ValidationResult) :
  Ex2.validate_row row_num row = Some r ->
  Ex2.cleaned_data r = Some cleaned ->
  exists d,
    Ex3.transform_row row = Some d
    /\ cleaned !! "hostname" = Some (Ex3.hostname d)
    /\ cleaned !! "ip_address" = Some (Ex3.ip_address d)
    /\ cleaned !! "device_type" = Some (Ex3.device_type d)
    /\ cleaned !! "location" = Some (Ex3.location d)
    /\ Ex3.status d = "active".
Proof.
  rewrite validate_row_unfold. intros [= <-]. simpl.
  destruct (row_errors row) eqn:E; [| done]. intros [= <-].
  apply row_errors_nil in E as ((Hh & Hv) & (Hi & _) & _).
  exists (device_of row). split.
  - rewrite transform_row_unfold, is_valid_row_unfold.
    apply truthy_ne in Hh, Hi. by rewrite Hh, Hi.
  - rewrite is_valid_hostname_trim in Hv.
    destruct (valid_hostname_normal _ Hv) as (Hus & _ & Hn).
      unfold cleaned_row, device_of. rewrite !list_to_map_assoc. simpl.
    rewrite hostname_trim, Hn.
    by rewrite (replace_fixed "_" "-" _ Hus).
Qed.

Lemma accepted_row_transforms_witness :
  exists d,
    Ex3.transform_row row_c9 = Some d
    /\ cleaned_row row_c9 !! "hostname" = Some (Ex3.hostname d)
    /\ cleaned_row row_c9 !! "ip_address" = Some (Ex3.ip_address d)
    /\ cleaned_row row_c9 !! "device_type" = Some (Ex3.device_type d)
    /\ cleaned_row row_c9 !! "location" = Some (Ex3.location d)
    /\ Ex3.status d = "active".
Proof.
  apply (accepted_row_transforms 2 row_c9 (cleaned_row row_c9)
           {| Ex2.row_number := 2; Ex2.is_valid := true; Ex2.errors := [];
              Ex2.cleaned_data := Some (cleaned_row row_c9) |});
    reflexivity.
Defined.

(** ** [process_messy_csv] *)

Section ProcessFacts.

Lemma validate_row_result n row :
  Ex2.validate_row n row = Some (row_result n row).
Proof. apply validate_row_unfold. Qed.

Lemma process_rows_cons n row rest valid results :
  Ex2.process_rows n (row :: rest) valid results
  = Ex2.process_rows (n + 1) rest
      (valid ++ omap Ex2.cleaned_data [row_result n row])
      (results ++ [row_result n row]).
Proof.
  simpl. rewrite validate_row_result. unfold row_result. simpl.
  destruct (row_errors row); simpl.
  - by rewrite cleaned_row_nonempty.
  - by rewrite app_nil_r.
Qed.

Lemma process_rows_spec rows :
  forall n valid results,
  exists results',
    Ex2.process_rows n rows valid results
    = Some (valid ++ omap Ex2.cleaned_data results', results ++ results')
    /\ length results' = length rows
    /\ (forall i row, rows !! i = Some row ->
          exists r, results' !! i = Some r
                    /\ Ex2.validate_row (n + Z.of_nat i) row = Some r).
Proof.
  induction rows as [|row rest IH]; intros n valid results.
  - exists []. simpl. rewrite !app_nil_r. by repeat split.
  - rewrite process_rows_cons.
    destruct (IH (n + 1)%Z (valid ++ omap Ex2.cleaned_data [row_result n row])
                (results ++ [row_result n row])) as (rs & -> & Hlen & Hi).
    exists (row_result n row :: rs). split; [| split].
    + rewrite <- !app_assoc. f_equal. f_equal.
      change (row_result n row :: rs) with ([row_result n row] ++ rs).
      by rewrite omap_app.
    + simpl. by rewrite Hlen.
    + intros [|i] row' Hrow'; simpl in *.
      * injection Hrow' as <-. exists (row_result n row). split; [done |].
        by rewrite Z.add_0_r, validate_row_result.
      * destruct (Hi i row' Hrow') as (r' & ? & Hv). exists r'.
        split; [done |]. rewrite <- Hv. f_equal. lia.
Qed.

Lemma validate_row_number n row r :
  Ex2.validate_row n row = Some r ->
  Ex2.row_number r = n
  /\ (Ex2.is_valid r = true <-> is_Some (Ex2.cleaned_data r)).
Proof.
  rewrite validate_row_unfold. intros [= <-]. simpl.
  destruct (row_errors row); simpl; split; done.
Qed.

Lemma omap_length_le {A B} (f : A -> option B) (l : list A) :
  length (omap f l) <= length l.
Proof.
  induction l as [|x l IH]; csimpl; [done |].
  destruct (f x); csimpl; lia.
Qed.

Lemma omap_filter_length (l : list Ex2.ValidationResult) :
  Forall (fun r => Ex2.is_valid r = true <-> is_Some (Ex2.cleaned_data r)) l ->
  length (omap Ex2.cleaned_data l)
  = length (filter (fun r => Ex2.is_valid r = true) l).
Proof.
  induction 1 as [|r l Hr _ IH]; [done |].
  rewrite filter_cons. simpl.
  destruct (Ex2.cleaned_data r) as [c|] eqn:E.
  - rewrite decide_True; [simpl; by f_equal |].
    apply Hr. by eexists.
  - rewrite decide_False; [done |].
    intros Hv%Hr. by destruct Hv.
Qed.

End ProcessFacts.

(** X8.  [process_messy_csv] returns one result per row, in the order of
    the rows, and numbers them from 2: the result at position [i] is the
    one [validate_row] gives for row number [2 + i]. *)
Theorem process_messy_csv_results (rows : list (gmap string string)) :
  exists valid results,
    Ex2.process_messy_csv rows = Some (valid, results)
    /\ length results = length rows
    /\ (forall i row, rows !! i = Some row ->
          exists r, results !! i = Some r
                    /\ Ex2.validate_row (2 + Z.of_nat i) row = Some r
                    /\ Ex2.row_number r = (2 + Z.of_nat i)%Z).
Proof.
  destruct (process_rows_spec rows 2 [] []) as (rs & E & Hlen & Hi).
  eexists _, _. split; [exact E |]. split; [done |].
  intros i row Hrow. destruct (Hi i row Hrow) as (r & ? & Hv).
  exists r. repeat split; [done | done |].
  by apply validate_row_number in Hv as [? _].
Qed.

Lemma process_messy_csv_results_witness :
  exists r,
    Ex2.validate_row (2 + Z.of_nat 1) row_c5 = Some r
    /\ Ex2.row_number r = 3%Z.
Proof.
  destruct (process_messy_csv_results [row_c9; row_c5])
    as (valid & results & _ & _ & Hi).
  destruct (Hi 1 row_c5 eq_refl) as (r & _ & Hv & Hn).
  exists r. split; [exact Hv | exact Hn].
Defined.

(** X9.  The devices [process_messy_csv] returns as valid are the cleaned
    data of the valid results, in the order of the rows; there are as many
    of them as results with [is_valid] true, never more than rows; and each
    of them passes [validate_row] again unchanged. *)
Theorem process_messy_csv_valid
    (rows valid : list (gmap string string))
    (results : list Ex2.ValidationResult) :
  Ex2.process_messy_csv rows = Some (valid, results) ->
  valid = omap Ex2.cleaned_data results
  /\ length valid
     = length (filter (fun r => Ex2.is_valid r = true) results)
  /\ length valid <= length rows
  /\ (forall cleaned n, cleaned ∈ valid ->
        Ex2.validate_row n cleaned =
          Some {| Ex2.row_number := n; Ex2.is_valid := true;
                  Ex2.errors := []; Ex2.cleaned_data := Some cleaned |}).
Proof.
  intros E.
  destruct (process_rows_spec rows 2 [] []) as (rs & E' & Hlen & Hi).
  unfold Ex2.process_messy_csv in E. rewrite E' in E. simpl in E.
  injection E as <- <-.
  assert (Hfrom : forall r, r ∈ rs ->
            exists n row, Ex2.validate_row n row = Some r).
  { intros r (i & Hr)%list_elem_of_lookup.
    destruct (lookup_lt_is_Some_2 rows i) as [row Hrow].
    { rewrite <- Hlen. by eapply lookup_lt_Some. }
    destruct (Hi i row Hrow) as (r' & Hr' & Hv).
    rewrite Hr in Hr'. injection Hr' as <-. eauto. }
  split; [done |]. split; [| split].
  - apply omap_filter_length, Forall_forall. intros r Hr.
    destruct (Hfrom r Hr) as (n & row & Hv).
    by apply validate_row_number in Hv as [_ ?].
  - rewrite <- Hlen. apply omap_length_le.
  - intros cleaned n (r & Hr & Hc)%list_elem_of_omap.
    destruct (Hfrom r Hr) as (m & row & Hv).
    by apply (cleaned_data_fixed m n row cleaned r).
Qed.

Lemma process_messy_csv_valid_witness :
  [cleaned_row row_c9]
  = omap Ex2.cleaned_data
      [ {| Ex2.row_number := 2; Ex2.is_valid := true; Ex2.errors := [];
           Ex2.cleaned_data := Some (cleaned_row row_c9) |};
        {| Ex2.row_number := 3; Ex2.is_valid := false;
           Ex2.errors := ["Missing IP address"];
           Ex2.cleaned_data := None |} ].
Proof.
  apply (process_messy_csv_valid [row_c9; row_c5]). reflexivity.
Defined.

(** ** More on the write pipeline *)

Section MorePipelineFacts.

Lemma read_rows_from st rows :
  fold_left Ex3.read_row rows st
  = Ex3.mkRead (Ex3.devices st ++ omap Ex3.transform_row rows)
      (Ex3.skipped st
       + length (filter (fun row => Ex3.is_valid_row row = false) rows)).
Proof.
  revert st. induction rows as [|row rows IH]; intros [devs sk]; simpl.
  - by rewrite app_nil_r, Nat.add_0_r.
  - rewrite IH, filter_cons. csimpl. unfold Ex3.read_row.
    rewrite !transform_row_unfold.
    destruct (Ex3.is_valid_row row) eqn:E; simpl.
    + by rewrite <- app_assoc.
    + f_equal. lia.
Qed.

Lemma read_rows_spec rows :
  Ex3.read_rows rows
  = Ex3.mkRead (omap Ex3.transform_row rows)
      (length (filter (fun row => Ex3.is_valid_row row = false) rows)).
Proof. unfold Ex3.read_rows. by rewrite read_rows_from. Qed.

Lemma omap_transform_length rows :
  length (omap Ex3.transform_row rows)
  + length (filter (fun row => Ex3.is_valid_row row = false) rows)
  = length rows.
Proof.
  induction rows as [|row rows IH]; [done |].
  rewrite filter_cons. csimpl. rewrite transform_row_unfold.
  destruct (Ex3.is_valid_row row) eqn:E; simpl in *; lia.
Qed.

Lemma omap_split {A B} (f : A -> option B) (l : list A) l1 y l2 :
  omap f l = l1 ++ y :: l2 ->
  exists r1 x r2, l = r1 ++ x :: r2 /\ omap f r1 = l1 /\ f x = Some y
                  /\ omap f r2 = l2.
Proof.
  revert l1. induction l as [|x l IH]; intros l1; csimpl.
  - by destruct l1.
  - destruct (f x) as [z|] eqn:E.
    + destruct l1 as [|w l1]; simpl.
      * intros [= -> <-]. exists [], x, l. by repeat split.
      * intros [= -> H]. destruct (IH l1 H) as (r1 & x' & r2 & -> & <- & ? & ?).
        exists (x :: r1), x', r2. csimpl. rewrite E. by repeat split.
    + intros H. destruct (IH l1 H) as (r1 & x' & r2 & -> & <- & ? & ?).
      exists (x :: r1), x', r2. csimpl. rewrite E. by repeat split.
Qed.

(** A kept device is the first of the list with its hostname. *)
Lemma unique_devices_first devs d :
  d ∈ Ex3.unique_devices (Ex3.remove_duplicates devs) ->
  exists pre post,
    devs = pre ++ d :: post /\ Ex3.hostname d ∉ Ex3.hostname <$> pre.
Proof.
  induction devs as [|x pre IH] using rev_ind; [by intros ?%elem_of_nil |].
  rewrite remove_duplicates_snoc.
  destruct (decide (Ex3.hostname x ∈ Ex3.seen (Ex3.remove_duplicates pre)))
    as [Hin|Hin].
  - rewrite (dedup_step_seen _ _ Hin). simpl. intros Hd.
    destruct (IH Hd) as (p & q & -> & ?).
    exists p, (q ++ [x]). by rewrite <- app_assoc.
  - rewrite (dedup_step_fresh _ _ Hin). simpl.
    intros [Hd | ->%list_elem_of_singleton]%elem_of_app.
    + destruct (IH Hd) as (p & q & -> & ?).
      exists p, (q ++ [x]). by rewrite <- app_assoc.
    + exists pre, []. split; [done |].
      by rewrite seen_hostnames, elem_of_list_to_set in Hin.
Qed.

Lemma unique_devices_hostnames devs h :
  h ∈ Ex3.hostname <$> Ex3.unique_devices (Ex3.remove_duplicates devs)
  <-> h ∈ Ex3.hostname <$> devs.
Proof.
  destruct (unique_devices_invariant devs) as (Hset & _).
  rewrite seen_hostnames in Hset.
  by rewrite <- !(elem_of_list_to_set (C := gset string)), Hset.
Qed.

Lemma sort_by_sorted_id {A} (key : A -> string) l :
  StronglySorted (key_le key) l -> PySort.sort_by key l = l.
Proof.
  induction 1 as [|x l Hs IH Hx]; [done |].
  simpl. rewrite IH. destruct l as [|y r]; [done |]. simpl.
  apply Forall_cons in Hx as [Hxy _]. unfold key_le in Hxy. by rewrite Hxy.
Qed.

Lemma sorted_lt_le {A} (key : A -> string) l :
  StronglySorted (key_lt key) l -> StronglySorted (key_le key) l.
Proof.
  induction 1 as [|x l Hs IH Hx]; constructor; [done |].
  eapply Forall_impl; [exact Hx |]. intros y. apply key_lt_le.
Qed.

Lemma remove_duplicates_nodup devs :
  NoDup (Ex3.hostname <$> devs) ->
  Ex3.unique_devices (Ex3.remove_duplicates devs) = devs
  /\ Ex3.duplicates (Ex3.remove_duplicates devs) = 0.
Proof.
  induction devs as [|x pre IH] using rev_ind; [done |].
  rewrite fmap_app. intros (Hpre & Hx & _)%NoDup_app.
  destruct (IH Hpre) as (Hu & Hd).
  rewrite remove_duplicates_snoc, dedup_step_fresh.
  - simpl. by rewrite Hu, Hd.
  - rewrite seen_hostnames, elem_of_list_to_set. intros Hin.
    apply (Hx _ Hin). apply list_elem_of_here.
Qed.

(** A Device written out and read back is the same Device. *)
Lemma transform_row_to_dict row d :
  Ex3.transform_row row = Some d ->
  Ex3.is_valid_row (Ex3.to_dict d) = true
  /\ Ex3.transform_row (Ex3.to_dict d) = Some d.
Proof.
  rewrite transform_row_unfold, is_valid_row_unfold.
  destruct (truthy (strip (field row "hostname" "name"))) eqn:Hh; [| done].
  destruct (truthy (strip (field row "ip" "ip_address"))) eqn:Hi; [| done].
  simpl. intros [= <-].
  apply truthy_ne in Hh, Hi.
  assert (Fh : field (Ex3.to_dict (device_of row)) "hostname" "name"
               = Ex3.hostname (device_of row)).
  { unfold field, get, Ex3.to_dict. by rewrite !list_to_map_assoc. }
  assert (Fi : field (Ex3.to_dict (device_of row)) "ip" "ip_address"
               = Ex3.ip_address (device_of row)).
  { unfold field, get, Ex3.to_dict. by rewrite !list_to_map_assoc. }
  assert (Ft : field (Ex3.to_dict (device_of row)) "type" "device_type"
               = Ex3.device_type (device_of row)).
  { unfold field, get, Ex3.to_dict. by rewrite !list_to_map_assoc. }
  assert (Fl : field (Ex3.to_dict (device_of row)) "loc" "location"
               = Ex3.location (device_of row)).
  { unfold field, get, Ex3.to_dict. by rewrite !list_to_map_assoc. }
  destruct (normalize_hostname_chars (strip (field row "hostname" "name")))
    as (_ & Htrim & _ & _).
  assert (Hne : Ex3.normalize_hostname (strip (field row "hostname" "name"))
                <> "").
  { unfold Ex3.normalize_hostname.
    by rewrite !replace_empty, strip_lower, lower_empty, strip_idem. }
  assert (Hvalid : Ex3.is_valid_row (Ex3.to_dict (device_of row)) = true).
  { rewrite is_valid_row_unfold, Fh, Fi. simpl.
    rewrite (strip_fixed _ Htrim), strip_idem.
    apply truthy_ne in Hne, Hi. by rewrite Hne, Hi. }
  split; [done |].
  rewrite transform_row_unfold, Hvalid. f_equal.
  unfold device_of at 1. rewrite Fh, Fi, Ft, Fl. simpl.
  rewrite hostname_trim, normalize_hostname_idem, strip_idem.
  rewrite !device_type_same, device_type_trim, device_type_idem.
  rewrite !location_same, location_trim, location_idem.
  reflexivity.
Qed.

End MorePipelineFacts.

(** X10.  The figures the pipeline reports add up: accepted and skipped
    rows make up the input, written and duplicate devices make up the
    accepted ones; a row is skipped exactly when [is_valid_row] refuses it;
    the output has the header and one record per written device, each of
    five fields. *)
Theorem pipeline_accounting (rows : list (gmap string string)) :
  let out := Ex3.task_3_transform_pipeline rows in
  Ex3.valid_devices out + Ex3.skipped_invalid out = length rows
  /\ Ex3.final_count out + Ex3.duplicates_removed out = Ex3.valid_devices out
  /\ Ex3.skipped_invalid out
     = length (filter (fun row => Ex3.is_valid_row row = false) rows)
  /\ length (Ex3.written out) = S (Ex3.final_count out)
  /\ Forall (fun record => length record = 5) (Ex3.written out).
Proof.
  cbv zeta. unfold Ex3.task_3_transform_pipeline. simpl.
  rewrite read_rows_spec. simpl.
  set (devs := omap Ex3.transform_row rows).
  destruct (unique_devices_invariant devs) as (_ & _ & Hlen & _).
  rewrite (Permutation_length (sort_by_perm Ex3.hostname _)).
  split; [apply omap_transform_length |]. split; [done |]. split; [done |].
  split.
  - by rewrite length_fmap, (Permutation_length (sort_by_perm Ex3.hostname _)).
  - constructor; [done |]. apply Forall_fmap, Forall_forall. by intros d _.
Qed.

(** X11.  Nothing is invented and no hostname is lost: every written
    record is the Device of an accepted input row, namely of the first
    accepted row with that hostname, with status ["active"]; and the
    hostname of every accepted row is in the output. *)
Theorem pipeline_first_row_wins
    (rows : list (gmap string string)) (record : list string)
    (row : gmap string string) (d : Ex3.Device) :
  let out := Ex3.task_3_transform_pipeline rows in
  (record ∈ tail (Ex3.written out) ->
   exists pre first post kept,
     rows = pre ++ first :: post
     /\ Ex3.transform_row first = Some kept
     /\ record = [ Ex3.hostname kept; Ex3.ip_address kept;
                   Ex3.device_type kept; Ex3.location kept; "active" ]
     /\ (forall earlier d', earlier ∈ pre ->
           Ex3.transform_row earlier = Some d' ->
           Ex3.hostname d' <> Ex3.hostname kept))
  /\ (row ∈ rows -> Ex3.transform_row row = Some d ->
      Ex3.hostname d ∈ hostname_column (Ex3.written out)).
Proof.
  cbv zeta. split.
  - unfold Ex3.task_3_transform_pipeline. simpl. rewrite read_rows_spec. simpl.
    intros (kept & -> & Hk)%list_elem_of_fmap.
    rewrite (sort_by_perm Ex3.hostname _) in Hk.
    apply unique_devices_first in Hk as (l1 & l2 & Hsplit & Hfirst).
    apply omap_split in Hsplit as (pre & first & post & -> & <- & Hf & _).
    exists pre, first, post, kept. repeat split; [done | |].
    + assert (Ex3.status kept = "active") as Hs.
      { rewrite transform_row_unfold in Hf.
        destruct (Ex3.is_valid_row first); [| done]. by injection Hf as <-. }
      by rewrite <- Hs.
    + intros earlier d' Hin Hd' Heq. apply Hfirst. rewrite <- Heq.
      apply list_elem_of_fmap_2, list_elem_of_omap. eauto.
  - intros Hin Hd. rewrite written_hostname_column, read_rows_spec. simpl.
    unfold Ex3.sorted_unique. rewrite (sort_by_perm Ex3.hostname _).
    apply unique_devices_hostnames, list_elem_of_fmap_2, list_elem_of_omap.
    eauto.
Qed.

Lemma pipeline_first_row_wins_witness :
  "sw-01" ∈ hostname_column
              (Ex3.written
                 (Ex3.task_3_transform_pipeline
                    [row_sw_third; row_sw_upper; row_sw_under])).
Proof.
  apply (proj2 (pipeline_first_row_wins
                  [row_sw_third; row_sw_upper; row_sw_under] []
                  row_sw_under (device_of row_sw_under))).
  - apply list_elem_of_further, list_elem_of_further, list_elem_of_here.
  - reflexivity.
Defined.

(** X12.  Writing a Device and reading it back gives the same Device: the
    dict of a Device that [transform_row] built is itself an accepted row,
    and [transform_row] turns it into that very Device. *)
Theorem transform_row_round_trip
    (row : gmap string string) (d : Ex3.Device) :
  Ex3.transform_row row = Some d ->
  Ex3.is_valid_row (Ex3.to_dict d) = true
  /\ Ex3.transform_row (Ex3.to_dict d) = Some d.
Proof. apply transform_row_to_dict. Qed.

Lemma transform_row_round_trip_witness :
  Ex3.is_valid_row (Ex3.to_dict (device_of row_c6)) = true
  /\ Ex3.transform_row (Ex3.to_dict (device_of row_c6))
     = Some (device_of row_c6).
Proof.
  apply (transform_row_round_trip row_c6 (device_of row_c6)). reflexivity.
Defined.

(** X13.  The pipeline is idempotent: run on the rows it has written, it
    writes the same records again, skips none and removes no duplicate. *)
Theorem pipeline_idempotent (rows : list (gmap string string)) :
  let out := Ex3.task_3_transform_pipeline rows in
  let again :=
    Ex3.task_3_transform_pipeline
      (Ex3.to_dict <$> Ex3.sorted_unique (Ex3.devices (Ex3.read_rows rows))) in
  Ex3.written again = Ex3.written out
  /\ Ex3.valid_devices again = Ex3.final_count out
  /\ Ex3.skipped_invalid again = 0
  /\ Ex3.duplicates_removed again = 0
  /\ Ex3.final_count again = Ex3.final_count out.
Proof.
  cbv zeta. rewrite read_rows_spec. simpl.
  set (devs := omap Ex3.transform_row rows).
  set (kept := Ex3.sorted_unique devs).
  destruct (unique_devices_invariant devs) as (_ & Hnd & _ & Hsub).
  assert (Hsorted : StronglySorted (key_lt Ex3.hostname) kept)
    by by apply sort_by_strict.
  assert (Hle : StronglySorted (key_le Ex3.hostname) kept)
    by by apply sorted_lt_le.
  assert (Hback : omap Ex3.transform_row (Ex3.to_dict <$> kept) = kept).
  { assert (Hall : Forall (fun d => Ex3.transform_row (Ex3.to_dict d) = Some d)
                     kept).
    { apply Forall_forall. intros d Hd. unfold kept, Ex3.sorted_unique in Hd.
      rewrite (sort_by_perm Ex3.hostname _) in Hd.
      apply (sublist_subseteq _ _ Hsub), list_elem_of_omap in Hd
        as (row & _ & Hrow).
      by apply (transform_row_to_dict row). }
    clear -Hall. induction Hall as [|d l Hd _ IH]; [done |].
    csimpl. by rewrite Hd, IH. }
  assert (Hnone : filter (fun row => Ex3.is_valid_row row = false)
                    (Ex3.to_dict <$> kept) = []).
  { pose proof (omap_transform_length (Ex3.to_dict <$> kept)) as Hlen.
    rewrite Hback, length_fmap in Hlen.
    apply length_zero_iff_nil. lia. }
  destruct (remove_duplicates_nodup kept (strict_sorted_nodup _ _ Hsorted))
    as (Hu & Hd).
  unfold Ex3.task_3_transform_pipeline.
  rewrite !read_rows_spec, Hback, Hnone. simpl.
  fold devs. fold (Ex3.sorted_unique devs). fold kept.
  rewrite Hu, Hd, (sort_by_sorted_id _ _ Hle). done.
Qed.

(** ** Dicts in insertion order *)

Section DictFacts.
Context {V : Type}.
Implicit Types (d : list (string * V)) (k j : string) (v : V).

Lemma dict_get_None d k : PyDict.get d k = None <-> k ∉ d.*1.
Proof.
  induction d as [|[a w] d IH]; simpl.
  - split; [intros _; apply not_elem_of_nil | done].
  - rewrite not_elem_of_cons.
    destruct (String.eqb_spec a k) as [-> | Hne].
    + split; [done | by intros [? _]].
    + rewrite IH. split; [| by intros [_ ?]].
      intros ?. split; [congruence | done].
Qed.

Lemma dict_get_elem d k v :
  NoDup d.*1 -> (PyDict.get d k = Some v <-> (k, v) ∈ d).
Proof.
  induction d as [|[a w] d IH]; simpl.
  - intros _. split; [done | by intros ?%elem_of_nil].
  - intros [Ha Hnd]%NoDup_cons. rewrite elem_of_cons.
    destruct (String.eqb_spec a k) as [-> | Hne].
    + split; [intros [= ->]; by left |].
      intros [[= ->] | Hin]; [done |].
      exfalso. apply Ha. by apply (list_elem_of_fmap_2 fst _ (k, v)).
    + rewrite (IH Hnd). split; [by right |].
      intros [[= <- _] | ?]; done.
Qed.

Lemma dict_contains d k : PyDict.contains d k = true <-> k ∈ d.*1.
Proof.
  unfold PyDict.contains. destruct (PyDict.get d k) eqn:E.
  - split; [| done]. intros _. destruct (decide (k ∈ d.*1)); [done |].
    apply dict_get_None in n. congruence.
  - apply dict_get_None in E. split; [done | intros; contradiction].
Qed.

Lemma dict_get_set_eq d k v : PyDict.get (PyDict.set d k v) k = Some v.
Proof.
  induction d as [|[a w] d IH]; simpl.
  - by rewrite String.eqb_refl.
  - destruct (String.eqb a k) eqn:E; simpl; by rewrite E.
Qed.

Lemma dict_get_set_ne d k j v :
  k <> j -> PyDict.get (PyDict.set d k v) j = PyDict.get d j.
Proof.
  intros Hne. induction d as [|[a w] d IH]; simpl.
  - by apply String.eqb_neq in Hne as ->.
  - destruct (String.eqb_spec a k) as [-> | Hak]; simpl.
    + by apply String.eqb_neq in Hne as ->.
    + by rewrite IH.
Qed.

Lemma dict_set_keys d k v :
  (PyDict.set d k v).*1
  = if PyDict.contains d k then d.*1 else d.*1 ++ [k].
Proof.
  unfold PyDict.contains.
  induction d as [|[a w] d IH]; [done |].
  cbn [PyDict.set PyDict.get].
  destruct (String.eqb a k) eqn:E; [done |].
  rewrite fmap_cons, IH. by destruct (PyDict.get d k).
Qed.

Lemma dict_set_nodup d k v : NoDup d.*1 -> NoDup (PyDict.set d k v).*1.
Proof.
  intros Hnd. rewrite dict_set_keys.
  destruct (PyDict.contains d k) eqn:E; [done |].
  apply NoDup_app. repeat split; [done | | apply NoDup_singleton].
  intros x Hx ->%list_elem_of_singleton.
  apply dict_contains in Hx. congruence.
Qed.

End DictFacts.

(** ** Grouping and counting *)

Section GroupFacts.

Lemma dict_set_set {V} (d : list (string * V)) k v v' :
  PyDict.set (PyDict.set d k v) k v' = PyDict.set d k v'.
Proof.
  induction d as [|[a w] d IH]; simpl.
  - by rewrite String.eqb_refl.
  - destruct (String.eqb a k) eqn:E; simpl; rewrite E; [done | by rewrite IH].
Qed.

Lemma group_row_unfold d row :
  Ex3.group_row d row =
    match row !! "device_type" with
    | Some t =>
        Some (PyDict.set d t (default [] (PyDict.get d t) ++ [row]))
    | None => None
    end.
Proof.
  unfold Ex3.group_row. destruct (row !! "device_type") as [t|]; [| done].
  simpl. unfold PyDict.contains.
  destruct (PyDict.get d t) as [g|] eqn:E; simpl.
  - by rewrite E.
  - rewrite dict_get_set_eq. simpl. by rewrite dict_set_set.
Qed.

Lemma group_rows_snoc d pre row :
  Ex3.group_rows d (pre ++ [row])
  = Ex3.group_rows d pre ≫= fun d' => Ex3.group_row d' row.
Proof.
  revert d. induction pre as [|x pre IH]; intros d; simpl.
  - by destruct (Ex3.group_row d row).
  - destruct (Ex3.group_row d x); simpl; [apply IH | done].
Qed.

Lemma group_rows_None d rows :
  Ex3.group_rows d rows = None
  <-> exists row, row ∈ rows /\ row !! "device_type" = None.
Proof.
  revert d. induction rows as [|x rows IH]; intros d; simpl.
  - split; [done | by intros (? & ?%elem_of_nil & _)].
  - rewrite group_row_unfold.
    destruct (x !! "device_type") as [t|] eqn:E; simpl.
    + rewrite IH. split.
      * intros (row & ? & ?). exists row. split; [by right | done].
      * intros (row & [-> | ?]%elem_of_cons & ?); [congruence | eauto].
    + split; [| done]. intros _. exists x. split; [by left | done].
Qed.

Lemma group_total_set d k v :
  group_total (PyDict.set d k v) + length (default [] (PyDict.get d k))
  = group_total d + length v.
Proof.
  unfold group_total.
  induction d as [|[a w] d IH]; [csimpl; lia |].
  cbn [PyDict.set PyDict.get].
  destruct (String.eqb a k); [csimpl; lia |].
  rewrite !fmap_cons. cbn [sum_list snd]. lia.
Qed.

Lemma rows_with_snoc col t pre row :
  rows_with col t (pre ++ [row])
  = rows_with col t pre ++ (if decide (row !! col = Some t) then [row] else []).
Proof. unfold rows_with. by rewrite filter_app. Qed.

Lemma group_rows_invariant rows :
  forall d, Ex3.devices_by_type rows = Some d ->
  NoDup d.*1
  /\ (forall t, PyDict.get d t =
                match rows_with "device_type" t rows with
                | [] => None
                | g => Some g
                end)
  /\ group_total d = length rows.
Proof.
  unfold Ex3.devices_by_type.
  induction rows as [|row pre IH] using rev_ind; intros d.
  - intros [= <-]. split; [constructor | by split].
  - rewrite group_rows_snoc.
    destruct (Ex3.group_rows [] pre) as [d0|]; [| done]. simpl.
    destruct (IH d0 eq_refl) as (Hnd & Hget & Htot).
    rewrite group_row_unfold.
    destruct (row !! "device_type") as [t0|] eqn:E; [| done].
    intros [= <-]. split; [by apply dict_set_nodup |]. split.
    + intros t. rewrite rows_with_snoc, E.
      destruct (decide (t0 = t)) as [-> | Hne].
      * rewrite dict_get_set_eq, decide_True by done. rewrite Hget.
        by destruct (rows_with "device_type" t pre).
      * rewrite dict_get_set_ne, decide_False by congruence.
        by rewrite app_nil_r.
    + pose proof (group_total_set d0 t0
                    (default [] (PyDict.get d0 t0) ++ [row])) as Hs.
      rewrite length_app in Hs |- *. simpl in *. lia.
Qed.

End GroupFacts.

(** X14.  Grouping by type fails (the [KeyError] of [row["device_type"]])
    exactly when some row has no [device_type] column; a blank or unknown
    type is no failure, it is a group of its own. *)
Theorem devices_by_type_key_error (rows : list (gmap string string)) :
  Ex3.devices_by_type rows = None
  <-> exists row, row ∈ rows /\ row !! "device_type" = None.
Proof. apply group_rows_None. Qed.

Lemma devices_by_type_key_error_witness :
  Ex3.devices_by_type [row_sw_upper; row_no_type] = None.
Proof.
  apply (proj2 (devices_by_type_key_error [row_sw_upper; row_no_type])).
  exists row_no_type. split; [| reflexivity].
  apply list_elem_of_further, list_elem_of_here.
Defined.

(** X15.  When grouping succeeds, the groups partition the rows by the raw
    [device_type] value: the types are pairwise distinct, the group of a
    type holds exactly the rows with that type in their original order, no
    group is empty, and together the groups hold as many rows as the
    input. *)
Theorem devices_by_type_partition
    (rows : list (gmap string string))
    (groups : list (string * list (gmap string string))) :
  Ex3.devices_by_type rows = Some groups ->
  NoDup groups.*1
  /\ (forall t g, (t, g) ∈ groups
                  <-> g = rows_with "device_type" t rows /\ g <> [])
  /\ group_total groups = length rows.
Proof.
  intros H. destruct (group_rows_invariant rows groups H) as (Hnd & Hget & Htot).
  split; [done |]. split; [| done].
  intros t g. rewrite <- (dict_get_elem groups t g Hnd), Hget.
  destruct (rows_with "device_type" t rows) as [|x l] eqn:E.
  - split; [done | by intros [-> ?]].
  - split; [by intros [= <-] | by intros [-> _]].
Qed.

Lemma devices_by_type_partition_witness :
  ("sw", [row_sw_upper]) ∈
    [ ("sw", [row_sw_upper]); ("switch", [row_sw_under]) ].
Proof.
  apply (proj1 (proj2 (devices_by_type_partition
                         [row_sw_upper; row_sw_under]
                         [ ("sw", [row_sw_upper]); ("switch", [row_sw_under]) ]
                         eq_refl))).
  split; [reflexivity | discriminate].
Defined.

Section StatsFacts.

Lemma count_total_set (d : list (string * nat)) k n :
  sum_list (PyDict.set d k n).*2 + default 0 (PyDict.get d k)
  = sum_list d.*2 + n.
Proof.
  induction d as [|[a w] d IH]; [csimpl; lia |].
  cbn [PyDict.set PyDict.get].
  destruct (String.eqb a k); [csimpl; lia |].
  rewrite !fmap_cons. cbn [sum_list snd]. lia.
Qed.

Lemma tally_ok_step col d pre row k :
  tally_ok col d pre -> row !! col = Some k ->
  tally_ok col (Ex3.count_up d k) (pre ++ [row]).
Proof.
  intros (Hnd & Hget & Hsum) Hk. unfold Ex3.count_up.
  split; [by apply dict_set_nodup |]. split.
  - intros t. rewrite rows_with_snoc, Hk.
    destruct (decide (Some k = Some t)) as [[= ->] | Hne].
    + rewrite dict_get_set_eq, Hget.
      destruct (decide (rows_with col t pre = [])) as [-> | Hr]; [done |].
      rewrite decide_False by (by destruct (rows_with col t pre)).
      f_equal. rewrite length_app. simpl. lia.
    + rewrite dict_get_set_ne by congruence. by rewrite app_nil_r.
  - pose proof (count_total_set d k (default 0 (PyDict.get d k) + 1)) as Hs.
    rewrite length_app. simpl. lia.
Qed.

Lemma count_rows_snoc st pre row :
  Ex3.count_rows st (pre ++ [row])
  = Ex3.count_rows st pre ≫= fun st' => Ex3.count_row st' row.
Proof.
  revert st. induction pre as [|x pre IH]; intros st; simpl.
  - by destruct (Ex3.count_row st row).
  - destruct (Ex3.count_row st x); simpl; [apply IH | done].
Qed.

Lemma count_row_None st row :
  Ex3.count_row st row = None
  <-> row !! "device_type" = None \/ row !! "location" = None.
Proof.
  unfold Ex3.count_row.
  destruct (row !! "device_type"), (row !! "location"); simpl;
    intuition congruence.
Qed.

Lemma count_rows_None st rows :
  Ex3.count_rows st rows = None
  <-> exists row, row ∈ rows
        /\ (row !! "device_type" = None \/ row !! "location" = None).
Proof.
  revert st. induction rows as [|x rows IH]; intros st; simpl.
  - split; [done | by intros (? & ?%elem_of_nil & _)].
  - destruct (Ex3.count_row st x) as [st'|] eqn:E; simpl.
    + rewrite IH. split.
      * intros (row & ? & ?). exists row. split; [by right | done].
      * intros (row & [-> | ?]%elem_of_cons & Hr); [| eauto].
        apply (proj2 (count_row_None st x)) in Hr. congruence.
    + apply count_row_None in E. split; [| done].
      intros _. exists x. split; [by left | done].
Qed.

Lemma collect_stats_invariant rows :
  forall s, Ex3.collect_stats rows = Some s ->
  Ex3.total_devices s = length rows
  /\ tally_ok "device_type" (Ex3.by_type s) rows
  /\ tally_ok "location" (Ex3.by_location s) rows.
Proof.
  unfold Ex3.collect_stats.
  induction rows as [|row pre IH] using rev_ind; intros s.
  - intros [= <-]. simpl. repeat split; (constructor || done).
  - rewrite count_rows_snoc.
    destruct (Ex3.count_rows _ pre) as [s0|]; [| done]. simpl.
    destruct (IH s0 eq_refl) as (Htot & Ht & Hl).
    unfold Ex3.count_row.
    destruct (row !! "device_type") as [t|] eqn:Et; [| done].
    destruct (row !! "location") as [l|] eqn:El; [| done].
    simpl. intros [= <-]. simpl. split; [| split].
    + rewrite length_app. simpl. lia.
    + by apply tally_ok_step.
    + by apply tally_ok_step.
Qed.

Lemma insert_item_by x (l : list (string * nat)) :
  x.1 ∉ l.*1 -> PyDict.insert_item x l = PySort.insert_by fst x l.
Proof.
  induction l as [|y l IH]; [done |].
  rewrite fmap_cons. intros [Hne Hl]%not_elem_of_cons. simpl.
  unfold PyDict.item_ltb.
  assert (String.eqb y.1 x.1 = false) as -> by by apply String.eqb_neq.
  rewrite orb_false_r. by rewrite (IH Hl).
Qed.

Lemma sorted_items_sort_by (d : list (string * nat)) :
  NoDup d.*1 -> PyDict.sorted_items d = PySort.sort_by fst d.
Proof.
  induction d as [|x d IH]; [done |].
  rewrite fmap_cons. intros [Hx Hnd]%NoDup_cons. simpl.
  change (foldr PyDict.insert_item [] d) with (PyDict.sorted_items d).
  change (foldr (PySort.insert_by fst) [] d) with (PySort.sort_by fst d).
  rewrite (IH Hnd). apply insert_item_by.
  by rewrite (sort_by_perm fst d).
Qed.

End StatsFacts.

(** X16.  Collecting the statistics fails (a [KeyError]) exactly when some
    row lacks the [device_type] or the [location] column. *)
Theorem collect_stats_key_error (rows : list (gmap string string)) :
  Ex3.collect_stats rows = None
  <-> exists row, row ∈ rows
        /\ (row !! "device_type" = None \/ row !! "location" = None).
Proof. apply count_rows_None. Qed.

Lemma collect_stats_key_error_witness :
  Ex3.collect_stats [row_sw_upper; row_no_type] = None.
Proof.
  apply (proj2 (collect_stats_key_error [row_sw_upper; row_no_type])).
  exists row_no_type. split; [| left; reflexivity].
  apply list_elem_of_further, list_elem_of_here.
Defined.

(** X17.  When it succeeds, the statistics count the rows: the total is the
    number of rows; for every raw type (and every raw location) the table
    holds the number of rows with that value, a value no row has being
    absent rather than listed with zero; and the counts of either table
    add up to the total. *)
Theorem collect_stats_counts
    (rows : list (gmap string string)) (s : Ex3.Stats) (t : string) :
  Ex3.collect_stats rows = Some s ->
  Ex3.total_devices s = length rows
  /\ default 0 (PyDict.get (Ex3.by_type s) t)
     = length (rows_with "device_type" t rows)
  /\ default 0 (PyDict.get (Ex3.by_location s) t)
     = length (rows_with "location" t rows)
  /\ (t ∈ (Ex3.by_type s).*1 <-> rows_with "device_type" t rows <> [])
  /\ (t ∈ (Ex3.by_location s).*1 <-> rows_with "location" t rows <> [])
  /\ sum_list (Ex3.by_type s).*2 = Ex3.total_devices s
  /\ sum_list (Ex3.by_location s).*2 = Ex3.total_devices s.
Proof.
  intros H.
  destruct (collect_stats_invariant rows s H)
    as (Htot & (_ & Ht & St) & (_ & Hl & Sl)).
  assert (Hcount : forall col d,
            PyDict.get d t =
              (if decide (rows_with col t rows = []) then None
               else Some (length (rows_with col t rows))) ->
            default 0 (PyDict.get d t) = length (rows_with col t rows)
            /\ (t ∈ d.*1 <-> rows_with col t rows <> [])).
  { intros col d Hd. split.
    - rewrite Hd. by destruct (decide (rows_with col t rows = [])) as [-> |].
    - destruct (decide (rows_with col t rows = [])) as [E | E].
      + apply dict_get_None in Hd. by split.
      + split; [done |]. intros _.
        destruct (decide (t ∈ d.*1)) as [Hin | Hin]; [done |].
        apply dict_get_None in Hin. congruence. }
  destruct (Hcount _ _ (Ht t)) as (? & ?).
  destruct (Hcount _ _ (Hl t)) as (? & ?).
  rewrite Htot. repeat (split; [done |]). done.
Qed.

Lemma collect_stats_counts_witness :
  default 0
    (PyDict.get [("sw", 1); ("switch", 1)] "sw")
  = length (rows_with "device_type" "sw" [row_sw_upper; row_sw_under]).
Proof.
  apply (proj1 (proj2 (collect_stats_counts
                         [row_sw_upper; row_sw_under]
                         {| Ex3.total_devices := 2;
                            Ex3.by_type := [("sw", 1); ("switch", 1)];
                            Ex3.by_location := [("Bldg A", 1); ("Bldg B", 1)] |}
                         "sw" eq_refl))).
Defined.

(** X18.  The two listings of the report, [sorted(... .items())], hold
    the entries of their table, each once, in strictly ascending order of
    the key. *)
Theorem collect_stats_sorted
    (rows : list (gmap string string)) (s : Ex3.Stats) :
  Ex3.collect_stats rows = Some s ->
  (Permutation (PyDict.sorted_items (Ex3.by_type s)) (Ex3.by_type s)
   /\ StronglySorted (fun a b => String.ltb a.1 b.1 = true)
        (PyDict.sorted_items (Ex3.by_type s)))
  /\ (Permutation (PyDict.sorted_items (Ex3.by_location s))
        (Ex3.by_location s)
      /\ StronglySorted (fun a b => String.ltb a.1 b.1 = true)
           (PyDict.sorted_items (Ex3.by_location s))).
Proof.
  intros H.
  destruct (collect_stats_invariant rows s H)
    as (_ & (Nt & _) & (Nl & _)).
  rewrite !sorted_items_sort_by by done.
  split; (split; [apply sort_by_perm | by apply (sort_by_strict fst)]).
Qed.

Lemma collect_stats_sorted_witness :
  Permutation (PyDict.sorted_items [("sw", 1); ("rtr", 2)])
    [("sw", 1); ("rtr", 2)]
  /\ StronglySorted (fun a b => String.ltb a.1 b.1 = true)
       (PyDict.sorted_items [("sw", 1); ("rtr", 2)]).
Proof.
  apply (proj1 (collect_stats_sorted
                  [row_sw_upper; row_sw_third; row_sw_third]
                  {| Ex3.total_devices := 3;
                     Ex3.by_type := [("sw", 1); ("rtr", 2)];
                     Ex3.by_location := [("Bldg A", 1); ("DC", 2)] |}
                  eq_refl)).
Defined.
